(** * oshu: the audio stream decoder and the playback pipeline

    A shallow embedding of [src/audio/stream.c] and [src/audio/pipeline.c].

    The C code drives three external libraries (libavformat/libavcodec,
    libavfilter and SDL).  None of them is part of the repository, so they
    are taken as an interface, [libav]: an arbitrary state machine whose
    operations return the codes and values the C code branches on, and
    which answers the two questions about memory that the code depends on
    where it goes past what it was given (a store through a freed pointer,
    a copy longer than the frame it reads).  The
    functions of the repository are written over that interface in a small
    monad that threads the library state, collects the observable actions
    of the program (log lines, frames handed to the filter graph, resources
    acquired and released), and accounts for the three ways a call can end:
    it returns, the process aborts (a failed [assert], a null dereference),
    or the loop is still running when the fuel is spent. *)

From Stdlib Require Import ZArith QArith List Sorted Ascii String Bool Lia.
Import ListNotations.
Local Open Scope string_scope.
Local Open Scope list_scope.
Local Open Scope Z_scope.

(** ** Return codes of the libraries *)

(** [AVERROR_EOF] is [FFERRTAG('E','O','F',' ')]. *)
Definition AVERROR_EOF : Z := - 541478725.
(** [AVERROR(EAGAIN)], with the value [EAGAIN = 11] of Linux. *)
Definition AVERROR_EAGAIN : Z := - 11.
(** [AVERROR_INVALIDDATA] is [FFERRTAG('I','N','D','A')]: the data of one
    packet could not be decoded. *)
Definition AVERROR_INVALIDDATA : Z := - 1094995529.

(** ** Data of the libraries, as far as the code reads it *)

Inductive AVSampleFormat :=
| AV_SAMPLE_FMT_U8 | AV_SAMPLE_FMT_S16 | AV_SAMPLE_FMT_S32
| AV_SAMPLE_FMT_FLT | AV_SAMPLE_FMT_DBL
| AV_SAMPLE_FMT_U8P | AV_SAMPLE_FMT_S16P | AV_SAMPLE_FMT_S32P
| AV_SAMPLE_FMT_FLTP | AV_SAMPLE_FMT_DBLP.

Definition AV_CH_LAYOUT_MONO : Z := 4.
Definition AV_CH_LAYOUT_STEREO : Z := 3.
Definition AUDIO_F32 : Z := 33056. (* 0x8120 *)

Record AVRational := { num : Z; den : Z }.

(** [av_q2d]: [num / (double) den].  Doubles are modelled by exact
    rationals throughout. *)
Definition av_q2d (r : AVRational) : Q := (inject_Z (num r) / inject_Z (den r))%Q.

Record AVFrame := {
  best_effort_timestamp : Z;  (* int64_t *)
  data0 : list Z              (* the bytes of data[0] *)
}.

Record AVPacket := { stream_index : Z }.

Record AVCodec := { long_name : string }.

Record AVCodecContext := {
  sample_rate : Z;
  channels : Z;
  sample_fmt : AVSampleFormat;
  channel_layout : Z;
  bit_rate : Z
}.

Record AVStream := {
  st_index : Z;
  st_time_base : AVRational;
  st_duration : Z
}.

Record AVFormatContext := { streams : list AVStream }.

Record AVBufferSrcParameters := {
  par_format : option AVSampleFormat;   (* None is AV_SAMPLE_FMT_NONE *)
  par_time_base : AVRational;
  par_channel_layout : Z;
  par_sample_rate : Z
}.

(** A filter instance of the graph: the filter it was allocated from, its
    instance name, and what it was configured with. *)
Record AVFilterContext := {
  ctx_filter : string;
  ctx_name : string;
  src_params : option AVBufferSrcParameters;  (* av_buffersrc_parameters_set *)
  init_args : option string                   (* avfilter_init_str *)
}.

Record SDL_AudioSpec := {
  freq : Z;
  format : Z;
  spec_channels : Z;  (* Uint8 *)
  silence : Z;        (* Uint8 *)
  samples : Z;        (* Uint16 *)
  size : Z
}.

(** From [audio/sample.h]. *)
Record oshu_sample := {
  sample_samples : list Q;
  sample_size : Z;
  sample_length : Z
}.

(** ** What the program does to the outside *)

Inductive log_level := Verbose | Debug | Info | Warn | Error | Critical.

Inductive resource :=
| Context        (* the struct oshu_audio, calloc / free *)
| Demuxer        (* avformat_open_input / avformat_close_input *)
| Decoder        (* avcodec_alloc_context3 / avcodec_free_context *)
| Frame          (* av_frame_alloc / av_frame_free, the stream's frame *)
| Device         (* SDL_OpenAudioDevice / SDL_CloseAudioDevice *)
| Graph          (* avfilter_graph_alloc / avfilter_graph_free *)
| Params         (* av_buffersrc_parameters_alloc / av_free *)
| OutputFrame.   (* av_frame_alloc / av_frame_free, the pipeline's frame *)

Definition resource_eqb (x y : resource) : bool :=
  match x, y with
  | Context, Context | Demuxer, Demuxer | Decoder, Decoder | Frame, Frame
  | Device, Device | Graph, Graph | Params, Params | OutputFrame, OutputFrame => true
  | _, _ => false
  end.

Inductive event :=
| Log (lvl : log_level) (msg : string)      (* oshu_log_*: the format string *)
| AvError (rc : Z)                          (* oshu_av_error: "ffmpeg error: %s" *)
| Acquire (r : resource)
| Release (r : resource)
| WriteFrame (ctx : option AVFilterContext) (f : option AVFrame)
                                            (* av_buffersrc_write_frame *)
| RequestDevice (want : SDL_AudioSpec)      (* SDL_OpenAudioDevice *)
| PauseDevice (id : Z) (pause_on : Z).      (* SDL_PauseAudioDevice *)

(** ** The library interface *)

(** The calls of libavfilter that build the graph and return a code. *)
Inductive filter_op :=
| av_buffersrc_parameters_set (ctx : string) (p : AVBufferSrcParameters)
| avfilter_init_str (ctx : string) (args : option string)
| avfilter_link (src : string) (srcpad : Z) (dst : string) (dstpad : Z)
| avfilter_graph_config.

(** The calls of libavfilter that allocate or look up, and return a
    pointer the code only tests. *)
Inductive alloc_op :=
| avfilter_graph_alloc
| avfilter_get_by_name (filter_name : string)
| avfilter_graph_alloc_filter (filter_name inst_name : string)
| av_buffersrc_parameters_alloc.

Record libav := {
  lib_state : Type;
  (* libavformat *)
  avformat_open_input : string -> lib_state -> (Z * option AVFormatContext) * lib_state;
  avformat_find_stream_info : lib_state -> Z * lib_state;
  av_find_best_stream : lib_state -> (Z * option AVCodec) * lib_state;
  av_read_frame : lib_state -> (Z * AVPacket) * lib_state;
  (* libavcodec *)
  avcodec_alloc_context3 : option AVCodec -> lib_state -> option AVCodecContext * lib_state;
  avcodec_parameters_to_context :
    option AVCodecContext -> lib_state -> (Z * AVCodecContext) * lib_state;
  avcodec_open2 :
    option AVCodecContext -> lib_state -> (Z * AVCodecContext) * lib_state;
  avcodec_send_packet : option AVPacket -> lib_state -> Z * lib_state;
  avcodec_receive_frame : lib_state -> (Z * AVFrame) * lib_state;
  av_frame_alloc : lib_state -> option AVFrame * lib_state;
  (* libavfilter *)
  avfilter_alloc : alloc_op -> lib_state -> bool * lib_state;
  avfilter_call : filter_op -> lib_state -> Z * lib_state;
  av_buffersink_set_frame_size : Z -> lib_state -> lib_state;
  av_buffersrc_write_frame :
    option AVFilterContext -> option AVFrame -> lib_state -> Z * lib_state;
  av_buffersrc_get_nb_failed_requests : option AVFilterContext -> lib_state -> Z;
  av_buffersink_get_frame : lib_state -> (Z * AVFrame) * lib_state;
  (* SDL *)
  SDL_OpenAudioDevice : SDL_AudioSpec -> lib_state -> (Z * SDL_AudioSpec) * lib_state;
  SDL_PauseAudioDevice : Z -> Z -> lib_state -> lib_state;
  (* libc *)
  calloc : lib_state -> bool * lib_state;
  (* av_frame_free, avcodec_free_context, avformat_close_input,
     SDL_CloseAudioDevice, av_free, free *)
  release : resource -> lib_state -> lib_state;
  (* memory: whether the block the allocator returned last is the one that
     was released last, and the byte that lies at offset [i] from the start
     of the data of a frame where the data has ended before *)
  block_reused : lib_state -> bool;
  memory_past : AVFrame -> lib_state -> nat -> Z
}.

(** ** The monad *)

Inductive outcome (S A : Type) :=
| Ret (a : A) (s : S) (tr : list event)   (* returned [a] *)
| Abort (tr : list event)                 (* the process was aborted *)
| Timeout.                                (* fuel spent inside a loop *)
Arguments Ret {S A} a s tr.
Arguments Abort {S A} tr.
Arguments Timeout {S A}.

Definition M (S A : Type) : Type := S -> outcome S A.

Definition ret {S A} (a : A) : M S A := fun s => Ret a s [].

(** What happened before is kept in front of what happens next. *)
Definition prepend {S A} (tr : list event) (o : outcome S A) : outcome S A :=
  match o with
  | Ret a s tr' => Ret a s (tr ++ tr')
  | Abort tr' => Abort (tr ++ tr')
  | Timeout => Timeout
  end.

Definition bind {S A B} (m : M S A) (k : A -> M S B) : M S B :=
  fun s =>
    match m s with
    | Ret a s1 tr1 => prepend tr1 (k a s1)
    | Abort tr1 => Abort tr1
    | Timeout => Timeout
    end.

Notation "x <- m ;; k" := (bind m (fun x => k))
  (at level 61, m at next level, right associativity).
Notation "' pat <- m ;; k" := (bind m (fun x => match x with pat => k end))
  (at level 61, pat pattern, m at next level, right associativity).
Notation "m ;;; k" := (bind m (fun _ => k))
  (at level 61, right associativity).

Definition emit {S} (e : event) : M S unit := fun s => Ret tt s [e].
Definition abort {S A} : M S A := fun _ => Abort [].
Definition timeout {S A} : M S A := fun _ => Timeout.
(** A call that returns a value and moves the library on. *)
Definition call {S A} (f : S -> A * S) : M S A :=
  fun s => let (a, s') := f s in Ret a s' [].
(** A call that only moves the library on. *)
Definition exec {S} (f : S -> S) : M S unit := fun s => Ret tt (f s) [].
(** A call that only reads. *)
Definition query {S A} (f : S -> A) : M S A := fun s => Ret (f s) s [].
(** [assert (b)]. *)
Definition assert {S} (b : bool) : M S unit := if b then ret tt else abort.

(** ** The structures of the audio module *)

Record oshu_stream := {
  demuxer : option AVFormatContext;
  codec : option AVCodec;
  stream : option AVStream;
  decoder : option AVCodecContext;
  frame : option AVFrame;
  packet : AVPacket;
  time_base : Q   (* double *)
}.

Definition blank_packet : AVPacket := {| stream_index := 0 |}.
Definition blank_frame : AVFrame := {| best_effort_timestamp := 0; data0 := [] |}.

Definition set_demuxer (st : oshu_stream) (x : option AVFormatContext) : oshu_stream :=
  {| demuxer := x; codec := codec st; stream := stream st; decoder := decoder st;
     frame := frame st; packet := packet st; time_base := time_base st |}.
Definition set_codec (st : oshu_stream) (x : option AVCodec) : oshu_stream :=
  {| demuxer := demuxer st; codec := x; stream := stream st; decoder := decoder st;
     frame := frame st; packet := packet st; time_base := time_base st |}.
Definition set_stream (st : oshu_stream) (x : option AVStream) : oshu_stream :=
  {| demuxer := demuxer st; codec := codec st; stream := x; decoder := decoder st;
     frame := frame st; packet := packet st; time_base := time_base st |}.
Definition set_decoder (st : oshu_stream) (x : option AVCodecContext) : oshu_stream :=
  {| demuxer := demuxer st; codec := codec st; stream := stream st; decoder := x;
     frame := frame st; packet := packet st; time_base := time_base st |}.
Definition set_frame (st : oshu_stream) (x : option AVFrame) : oshu_stream :=
  {| demuxer := demuxer st; codec := codec st; stream := stream st; decoder := decoder st;
     frame := x; packet := packet st; time_base := time_base st |}.
Definition set_packet (st : oshu_stream) (x : AVPacket) : oshu_stream :=
  {| demuxer := demuxer st; codec := codec st; stream := stream st; decoder := decoder st;
     frame := frame st; packet := x; time_base := time_base st |}.
Definition set_time_base (st : oshu_stream) (x : Q) : oshu_stream :=
  {| demuxer := demuxer st; codec := codec st; stream := stream st; decoder := decoder st;
     frame := frame st; packet := packet st; time_base := x |}.

(** The library writes its result into the object a pointer designates;
    the pointer itself is not changed, and nothing is stored through a
    null pointer. *)
Definition store {A} (p : option A) (x : A) : option A :=
  match p with Some _ => Some x | None => None end.

(** ** [audio/stream.c] *)

Section Stream.
Context (L : libav).
Local Abbreviation lib := (lib_state L).

Definition oshu_av_error (rc : Z) : M lib unit := emit (AvError rc).

Definition oshu_log {S} (lvl : log_level) (msg : string) : M S unit := emit (Log lvl msg).

(** The end of [next_page], after the loop: the packet is unreferenced and
    the code of the last call decides. *)
Definition next_page_end (rc : Z) (st : oshu_stream) : M lib (Z * oshu_stream) :=
  let st := set_packet st blank_packet in   (* av_packet_unref *)
  if rc <? 0 then
    oshu_av_error rc ;;;
    ret (-1, st)
  else ret (0, st).

Fixpoint next_page (fuel : nat) (st : oshu_stream) : M lib (Z * oshu_stream) :=
  match fuel with
  | O => timeout
  | S fuel' =>
      '(rc, pkt) <- call (av_read_frame L) ;;
      let st := set_packet st pkt in
      if rc =? AVERROR_EOF then
        oshu_log Debug "reached the last page, flushing" ;;;
        rc <- call (avcodec_send_packet L None) ;;
        next_page_end rc st
      else if rc <? 0 then
        next_page_end rc st
      else
        match stream st with
        | None => abort   (* stream->stream->index *)
        | Some s =>
            if stream_index (packet st) =? st_index s then
              rc <- call (avcodec_send_packet L (Some (packet st))) ;;
              next_page_end rc st
            else
              next_page fuel' (set_packet st blank_packet)   (* av_packet_unref *)
        end
  end.

Fixpoint oshu_next_frame (fuel : nat) (st : oshu_stream) : M lib (Z * oshu_stream) :=
  match fuel with
  | O => timeout
  | S fuel' =>
      '(rc, f) <- call (avcodec_receive_frame L) ;;
      let st := set_frame st (store (frame st) f) in
      if rc =? 0 then
        ret (0, st)
      else if rc =? AVERROR_EAGAIN then
        '(rc', st) <- next_page fuel' st ;;
        if rc' <? 0 then
          oshu_log Warn "abrupt end of stream" ;;;
          ret (-1, st)
        else oshu_next_frame fuel' st
      else if rc =? AVERROR_EOF then
        oshu_log Debug "reached the last frame" ;;;
        ret (AVERROR_EOF, st)
      else
        oshu_av_error rc ;;;
        ret (-1, st)
  end.

(** [avformat_open_input] stores the new context through its first
    argument; the program holds a demuxer from then on if the pointer is
    not null. *)
Definition acquired {S A} (r : resource) (p : option A) : M S unit :=
  match p with Some _ => emit (Acquire r) | None => ret tt end.

Definition open_demuxer_fail (rc : Z) (st : oshu_stream) : M lib (Z * oshu_stream) :=
  oshu_av_error rc ;;;
  ret (-1, st).

Definition open_demuxer (url : string) (st : oshu_stream) : M lib (Z * oshu_stream) :=
  '(rc, p) <- call (avformat_open_input L url) ;;
  acquired Demuxer p ;;;
  let st := set_demuxer st p in
  if rc <? 0 then
    oshu_log Error "failed opening the stream file" ;;;
    open_demuxer_fail rc st
  else
    rc <- call (avformat_find_stream_info L) ;;
    if rc <? 0 then
      oshu_log Error "error reading the stream headers" ;;;
      open_demuxer_fail rc st
    else
      '(rc, c) <- call (av_find_best_stream L) ;;
      let st := set_codec st c in
      if (rc <? 0) || (match c with None => true | Some _ => false end) then
        oshu_log Error "error finding the best stream stream" ;;;
        open_demuxer_fail rc st
      else
        match demuxer st with
        | None => abort                      (* stream->demuxer->streams *)
        | Some d =>
            match nth_error (streams d) (Z.to_nat rc) with
            | None => abort                  (* streams[rc] past the array *)
            | Some s =>
                let st := set_stream st (Some s) in
                let st := set_time_base st (av_q2d (st_time_base s)) in
                ret (0, st)
            end
        end.

Definition open_decoder_fail (rc : Z) (st : oshu_stream) : M lib (Z * oshu_stream) :=
  oshu_av_error rc ;;;
  ret (-1, st).

Definition open_decoder (st : oshu_stream) : M lib (Z * oshu_stream) :=
  d <- call (avcodec_alloc_context3 L (codec st)) ;;
  acquired Decoder d ;;;
  let st := set_decoder st d in
  match stream st with
  | None => abort                            (* stream->stream->codecpar *)
  | Some _ =>
  '(rc, c) <- call (avcodec_parameters_to_context L (decoder st)) ;;
  let st := set_decoder st (store (decoder st) c) in
  if rc <? 0 then
    oshu_log Error "error copying the codec context" ;;;
    open_decoder_fail rc st
  else
    '(rc, c) <- call (avcodec_open2 L (decoder st)) ;;
    let st := set_decoder st (store (decoder st) c) in
    if rc <? 0 then
      oshu_log Error "error opening the codec" ;;;
      open_decoder_fail rc st
    else
      f <- call (av_frame_alloc L) ;;
      acquired Frame f ;;;
      let st := set_frame st f in
      match frame st with
      | None =>
          oshu_log Error "could not allocate the codec frame" ;;;
          open_decoder_fail rc st
      | Some _ => ret (0, st)
      end
  end.

(** [av_frame_free], [avcodec_free_context] and [avformat_close_input]
    take the address of the pointer and reset it to null. *)
Definition free_and_null (r : resource) : M lib unit :=
  exec (release L r) ;;;
  emit (Release r).

Definition oshu_close_stream (st : oshu_stream) : M lib oshu_stream :=
  st <- match frame st with
        | Some _ => free_and_null Frame ;;; ret (set_frame st None)
        | None => ret st
        end ;;
  st <- match decoder st with
        | Some _ => free_and_null Decoder ;;; ret (set_decoder st None)
        | None => ret st
        end ;;
  match demuxer st with
  | Some _ => free_and_null Demuxer ;;; ret (set_demuxer st None)
  | None => ret st
  end.

Definition oshu_open_stream_fail (st : oshu_stream) : M lib (Z * oshu_stream) :=
  st <- oshu_close_stream st ;;
  ret (-1, st).

Definition oshu_open_stream (fuel : nat) (url : string) (st : oshu_stream)
  : M lib (Z * oshu_stream) :=
  '(rc, st) <- open_demuxer url st ;;
  if rc <? 0 then oshu_open_stream_fail st
  else
    '(rc, st) <- open_decoder st ;;
    if rc <? 0 then oshu_open_stream_fail st
    else
      '(rc, st) <- oshu_next_frame fuel st ;;
      if rc <? 0 then oshu_open_stream_fail st
      else ret (0, st).

End Stream.

(** ** The structures of the pipeline *)

Record AVFilterLink := {
  link_src : string; link_srcpad : Z;
  link_dst : string; link_dstpad : Z
}.

Record AVFilterGraph := { links : list AVFilterLink }.

Record oshu_pipeline := {
  graph : option AVFilterGraph;
  music : option AVFilterContext;
  effect : option AVFilterContext;
  mixer : option AVFilterContext;
  converter : option AVFilterContext;
  sink : option AVFilterContext;
  output : option AVFrame
}.

Record oshu_audio := {
  source : oshu_stream;
  pipeline : oshu_pipeline;
  device_id : Z;                 (* SDL_AudioDeviceID *)
  device_spec : SDL_AudioSpec;
  current_timestamp : Q;         (* double *)
  sample_index : Z;
  finished : Z;                  (* int *)
  overlay : option oshu_sample
}.

Definition set_graph (p : oshu_pipeline) (x : option AVFilterGraph) : oshu_pipeline :=
  {| graph := x; music := music p; effect := effect p; mixer := mixer p;
     converter := converter p; sink := sink p; output := output p |}.
Definition set_music (p : oshu_pipeline) (x : option AVFilterContext) : oshu_pipeline :=
  {| graph := graph p; music := x; effect := effect p; mixer := mixer p;
     converter := converter p; sink := sink p; output := output p |}.
Definition set_effect (p : oshu_pipeline) (x : option AVFilterContext) : oshu_pipeline :=
  {| graph := graph p; music := music p; effect := x; mixer := mixer p;
     converter := converter p; sink := sink p; output := output p |}.
Definition set_mixer (p : oshu_pipeline) (x : option AVFilterContext) : oshu_pipeline :=
  {| graph := graph p; music := music p; effect := effect p; mixer := x;
     converter := converter p; sink := sink p; output := output p |}.
Definition set_converter (p : oshu_pipeline) (x : option AVFilterContext) : oshu_pipeline :=
  {| graph := graph p; music := music p; effect := effect p; mixer := mixer p;
     converter := x; sink := sink p; output := output p |}.
Definition set_sink (p : oshu_pipeline) (x : option AVFilterContext) : oshu_pipeline :=
  {| graph := graph p; music := music p; effect := effect p; mixer := mixer p;
     converter := converter p; sink := x; output := output p |}.
Definition set_output (p : oshu_pipeline) (x : option AVFrame) : oshu_pipeline :=
  {| graph := graph p; music := music p; effect := effect p; mixer := mixer p;
     converter := converter p; sink := sink p; output := x |}.

Definition set_source (a : oshu_audio) (x : oshu_stream) : oshu_audio :=
  {| source := x; pipeline := pipeline a; device_id := device_id a;
     device_spec := device_spec a; current_timestamp := current_timestamp a;
     sample_index := sample_index a; finished := finished a; overlay := overlay a |}.
Definition set_pipeline (a : oshu_audio) (x : oshu_pipeline) : oshu_audio :=
  {| source := source a; pipeline := x; device_id := device_id a;
     device_spec := device_spec a; current_timestamp := current_timestamp a;
     sample_index := sample_index a; finished := finished a; overlay := overlay a |}.
Definition set_device (a : oshu_audio) (id : Z) (spec : SDL_AudioSpec) : oshu_audio :=
  {| source := source a; pipeline := pipeline a; device_id := id;
     device_spec := spec; current_timestamp := current_timestamp a;
     sample_index := sample_index a; finished := finished a; overlay := overlay a |}.
Definition set_current_timestamp (a : oshu_audio) (x : Q) : oshu_audio :=
  {| source := source a; pipeline := pipeline a; device_id := device_id a;
     device_spec := device_spec a; current_timestamp := x;
     sample_index := sample_index a; finished := finished a; overlay := overlay a |}.
Definition set_finished (a : oshu_audio) (x : Z) : oshu_audio :=
  {| source := source a; pipeline := pipeline a; device_id := device_id a;
     device_spec := device_spec a; current_timestamp := current_timestamp a;
     sample_index := sample_index a; finished := x; overlay := overlay a |}.
Definition set_overlay (a : oshu_audio) (x : option oshu_sample) : oshu_audio :=
  {| source := source a; pipeline := pipeline a; device_id := device_id a;
     device_spec := device_spec a; current_timestamp := current_timestamp a;
     sample_index := sample_index a; finished := finished a; overlay := x |}.

(** What [calloc] hands out: every byte is zero. *)
Definition zero_stream : oshu_stream :=
  {| demuxer := None; codec := None; stream := None; decoder := None;
     frame := None; packet := blank_packet; time_base := 0%Q |}.
Definition zero_pipeline : oshu_pipeline :=
  {| graph := None; music := None; effect := None; mixer := None;
     converter := None; sink := None; output := None |}.
Definition zero_spec : SDL_AudioSpec :=
  {| freq := 0; format := 0; spec_channels := 0; silence := 0; samples := 0; size := 0 |}.
Definition zero_audio : oshu_audio :=
  {| source := zero_stream; pipeline := zero_pipeline; device_id := 0;
     device_spec := zero_spec; current_timestamp := 0%Q; sample_index := 0;
     finished := 0; overlay := None |}.

(** ** libc on byte buffers *)

(** A count as the [size_t] the libc takes it as, 64 bits wide. *)
Definition size_t (n : Z) : nat := Z.to_nat (n mod 18446744073709551616).

(** [memset(s, c, n)]: [n] bytes from the start of [s] become
    [(unsigned char) c].  The bytes are written whatever the size of the
    buffer: those written past its end are shown after it. *)
Definition memset (s : list Z) (c : Z) (n : Z) : list Z :=
  repeat (c mod 256) (size_t n) ++ skipn (size_t n) s.

(** [memcpy(dst, src, n)]: [n] bytes are read from the start of [src] and
    written from the start of [dst], whatever the two objects hold.  Where
    [src] has ended, the byte read at offset [i] is [past i], what memory
    holds there; the bytes written past the end of [dst] are shown after
    it. *)
Definition memcpy (dst src : list Z) (past : nat -> Z) (n : Z) : list Z :=
  map (fun i => nth i src (past i)) (seq 0 (size_t n)) ++ skipn (size_t n) dst.

(** ** [audio/pipeline.c] *)

Definition sample_buffer_size : Z := 1024.

Definition new_filter (f n : string) : AVFilterContext :=
  {| ctx_filter := f; ctx_name := n; src_params := None; init_args := None |}.
Definition with_params (c : AVFilterContext) (p : AVBufferSrcParameters) : AVFilterContext :=
  {| ctx_filter := ctx_filter c; ctx_name := ctx_name c; src_params := Some p;
     init_args := init_args c |}.
Definition with_args (c : AVFilterContext) (args : option string) : AVFilterContext :=
  {| ctx_filter := ctx_filter c; ctx_name := ctx_name c; src_params := src_params c;
     init_args := args |}.
Definition add_link (g : AVFilterGraph) (s : string) (sp : Z) (d : string) (dp : Z)
  : AVFilterGraph :=
  {| links := links g ++ [ {| link_src := s; link_srcpad := sp;
                              link_dst := d; link_dstpad := dp |} ] |}.

(** [av_buffersrc_parameters_alloc] returns zeroed parameters whose format
    is [AV_SAMPLE_FMT_NONE]. *)
Definition fresh_params : AVBufferSrcParameters :=
  {| par_format := None; par_time_base := {| num := 0; den := 0 |};
     par_channel_layout := 0; par_sample_rate := 0 |}.

(** The library configures the filter a pointer of the pipeline designates,
    or the graph itself. *)
Definition on_music (f : AVFilterContext -> AVFilterContext) (p : oshu_pipeline) :=
  set_music p (option_map f (music p)).
Definition on_effect (f : AVFilterContext -> AVFilterContext) (p : oshu_pipeline) :=
  set_effect p (option_map f (effect p)).
Definition on_mixer (f : AVFilterContext -> AVFilterContext) (p : oshu_pipeline) :=
  set_mixer p (option_map f (mixer p)).
Definition on_converter (f : AVFilterContext -> AVFilterContext) (p : oshu_pipeline) :=
  set_converter p (option_map f (converter p)).
Definition on_graph (f : AVFilterGraph -> AVFilterGraph) (p : oshu_pipeline) :=
  set_graph p (option_map f (graph p)).

Section Pipeline.
Context (L : libav).
Local Abbreviation lib := (lib_state L).

Definition buffersrc_write_frame (ctx : option AVFilterContext) (f : option AVFrame)
  : M lib Z :=
  emit (WriteFrame ctx f) ;;;
  call (av_buffersrc_write_frame L ctx f).

Definition dump_stream_info (a : oshu_audio) : M lib unit :=
  let st := source a in
  oshu_log Info "============ Audio information ============" ;;;
  match codec st, decoder st, stream st with
  | Some _, Some _, Some _ =>
      oshu_log Info "            Codec: %s." ;;;
      oshu_log Info "      Sample rate: %d Hz." ;;;
      oshu_log Info " Average bit rate: %ld kbps." ;;;
      oshu_log Info "    Sample format: %s." ;;;
      oshu_log Info "         Duration: %d seconds."
  | _, _, _ => abort
  end.

Definition next_frame (fuel : nat) (a : oshu_audio) : M lib (Z * oshu_audio) :=
  '(rc, src) <- oshu_next_frame L fuel (source a) ;;
  let a := set_source a src in
  if rc <? 0 then
    rc <- buffersrc_write_frame (music (pipeline a)) None ;;
    assert (rc =? 0) ;;;
    ret (0, a)
  else
    rc <- buffersrc_write_frame (music (pipeline a)) (frame (source a)) ;;
    assert (rc =? 0) ;;;
    match frame (source a) with
    | None => abort                                 (* frame->best_effort_timestamp *)
    | Some f =>
        let ts := best_effort_timestamp f in
        if 0 <? ts then
          ret (0, set_current_timestamp a (time_base (source a) * inject_Z ts)%Q)
        else ret (0, a)
    end.

Definition feed (fuel : nat) (a : oshu_audio) : M lib oshu_audio :=
  n <- query (av_buffersrc_get_nb_failed_requests L (music (pipeline a))) ;;
  a <- (if 0 <? n then '(_, a) <- next_frame fuel a ;; ret a else ret a) ;;
  n <- query (av_buffersrc_get_nb_failed_requests L (effect (pipeline a))) ;;
  if 0 <? n then
    match overlay a with
    | Some _ => ret (set_overlay a None)
    | None =>
        _ <- buffersrc_write_frame (effect (pipeline a)) None ;;
        ret a
    end
  else ret a.

(** The last statement of the callback, as it is written:
    [memset(buffer, len, audio->device_spec.silence)]. *)
Definition audio_callback_end (a : oshu_audio) (buffer : list Z) (len : Z) : list Z :=
  memset buffer len (silence (device_spec a)).

(** [fuel] bounds the iterations of the [while] loop. *)
Fixpoint audio_callback (fuel : nat) (a : oshu_audio) (buffer : list Z) (len : Z)
  : M lib (oshu_audio * list Z) :=
  if negb (finished a =? 0) then
    ret (a, audio_callback_end a buffer len)
  else
    match fuel with
    | O => timeout
    | S fuel' =>
        '(rc, f) <- call (av_buffersink_get_frame L) ;;
        let a := set_pipeline a (set_output (pipeline a) (store (output (pipeline a)) f)) in
        if rc =? AVERROR_EAGAIN then
          a <- feed fuel' a ;;
          audio_callback fuel' a buffer len
        else if rc =? AVERROR_EOF then
          let a := set_finished a 1 in
          ret (a, audio_callback_end a buffer len)
        else if rc =? 0 then
          match output (pipeline a) with
          | None => abort                           (* output->data[0] *)
          | Some o =>
              past <- query (memory_past L o) ;;
              ret (a, memcpy buffer (data0 o) past len)
          end
        else
          oshu_av_error L rc ;;;
          ret (a, audio_callback_end a buffer len)
    end.

(** The [want] of [open_device]: [samples] is a [Uint16] and [channels] a
    [Uint8]; the callback and its userdata are the context itself. *)
Definition want_of (d : AVCodecContext) : SDL_AudioSpec :=
  {| freq := sample_rate d;
     format := AUDIO_F32;
     spec_channels := channels d mod 256;
     silence := 0;
     samples := (sample_buffer_size * (channels d mod 256)) mod 65536;
     size := 0 |}.

Definition open_device (a : oshu_audio) : M lib (Z * oshu_audio) :=
  match decoder (source a) with
  | None => abort                                   (* decoder->sample_rate *)
  | Some d =>
      let want := want_of d in
      emit (RequestDevice want) ;;;
      '(id, spec) <- call (SDL_OpenAudioDevice L want) ;;
      (if id =? 0 then ret tt else emit (Acquire Device)) ;;;
      let a := set_device a id spec in
      if device_id a =? 0 then
        oshu_log Error "failed to open the audio device: %s" ;;;
        ret (-1, a)
      else ret (0, a)
  end.

Definition alloc (op : alloc_op) : M lib bool := call (avfilter_alloc L op).
Definition fcall (op : filter_op) : M lib Z := call (avfilter_call L op).

(** [p->x = avfilter_graph_alloc_filter(p->graph, f, n); assert (p->x);] *)
Definition alloc_filter (f n : string) : M lib (option AVFilterContext) :=
  ok <- alloc (avfilter_graph_alloc_filter f n) ;;
  ret (if ok then Some (new_filter f n) else None).

Definition is_some {A} (p : option A) : bool :=
  match p with Some _ => true | None => false end.

Definition create_graph_fail (rc : Z) (a : oshu_audio) (p : oshu_pipeline)
  : M lib (Z * oshu_audio) :=
  oshu_av_error L rc ;;;
  ret (-1, set_pipeline a p).

Definition create_graph (a : oshu_audio) : M lib (Z * oshu_audio) :=
  let p := pipeline a in
  ok <- alloc avfilter_graph_alloc ;;
  (if ok then emit (Acquire Graph) else ret tt) ;;;
  let p := set_graph p (if ok then Some {| links := [] |} else None) in
  assert (is_some (graph p)) ;;;

  abuffer <- alloc (avfilter_get_by_name "abuffer") ;;
  assert abuffer ;;;
  m <- alloc_filter "abuffer" "music" ;;
  let p := set_music p m in
  assert (is_some (music p)) ;;;
  music_params <- alloc av_buffersrc_parameters_alloc ;;
  (if music_params then emit (Acquire Params) else ret tt) ;;;
  assert music_params ;;;
  match decoder (source a), stream (source a) with
  | Some d, Some s =>
  let music_params :=
    {| par_format := Some (sample_fmt d);
       par_time_base := st_time_base s;
       par_channel_layout := channel_layout d;
       par_sample_rate := sample_rate d |} in
  rc <- fcall (av_buffersrc_parameters_set "music" music_params) ;;
  if negb (rc =? 0) then create_graph_fail rc a p else
  let p := on_music (fun c => with_params c music_params) p in
  free_and_null L Params ;;;                                   (* av_free *)
  rc <- fcall (avfilter_init_str "music" None) ;;
  if rc <? 0 then create_graph_fail rc a p else
  oshu_log Debug "music source ready" ;;;

  e <- alloc_filter "abuffer" "effect" ;;
  let p := set_effect p e in
  assert (is_some (effect p)) ;;;
  effect_params <- alloc av_buffersrc_parameters_alloc ;;
  (if effect_params then emit (Acquire Params) else ret tt) ;;;
  assert effect_params ;;;
  (* [music_params->time_base = ...] is a store through the pointer that
     [av_free] has released.  It lands in [effect_params] when the allocator
     has handed the same block out again; otherwise it lands in freed memory
     and [effect_params] keeps the zero it was allocated with. *)
  aliased <- query (block_reused L) ;;
  let effect_params :=
    {| par_format := Some AV_SAMPLE_FMT_FLT;
       par_time_base := if aliased then st_time_base s
                        else par_time_base fresh_params;
       par_channel_layout := AV_CH_LAYOUT_STEREO;
       par_sample_rate := freq (device_spec a) |} in
  rc <- fcall (av_buffersrc_parameters_set "effect" effect_params) ;;
  if negb (rc =? 0) then create_graph_fail rc a p else
  let p := on_effect (fun c => with_params c effect_params) p in
  free_and_null L Params ;;;                                   (* av_free *)
  rc <- fcall (avfilter_init_str "effect" None) ;;
  if rc <? 0 then create_graph_fail rc a p else
  oshu_log Debug "effect source ready" ;;;

  amix <- alloc (avfilter_get_by_name "amix") ;;
  assert amix ;;;
  oshu_log Debug "got the amix filter" ;;;
  x <- alloc_filter "amix" "mixer" ;;
  let p := set_mixer p x in
  assert (is_some (mixer p)) ;;;
  oshu_log Debug "allocated the mixer" ;;;
  rc <- fcall (avfilter_init_str "mixer" (Some "inputs=2:duration=first")) ;;
  if rc <? 0 then create_graph_fail rc a p else
  let p := on_mixer (fun c => with_args c (Some "inputs=2:duration=first")) p in
  oshu_log Debug "mixer ready" ;;;

  aformat <- alloc (avfilter_get_by_name "aformat") ;;
  assert aformat ;;;
  c <- alloc_filter "aformat" "converter" ;;
  let p := set_converter p c in
  assert (is_some (converter p)) ;;;
  rc <- fcall (avfilter_init_str "converter" (Some "sample_fmts=flt")) ;;
  if rc <? 0 then create_graph_fail rc a p else
  let p := on_converter (fun c => with_args c (Some "sample_fmts=flt")) p in
  oshu_log Debug "converter ready" ;;;

  abuffersink <- alloc (avfilter_get_by_name "abuffersink") ;;
  assert abuffersink ;;;
  k <- alloc_filter "abuffersink" "sink" ;;
  let p := set_sink p k in
  assert (is_some (sink p)) ;;;
  rc <- fcall (avfilter_init_str "sink" None) ;;
  if rc <? 0 then create_graph_fail rc a p else
  oshu_log Debug "sink ready" ;;;

  rc <- fcall (avfilter_link "music" 0 "mixer" 0) ;;
  if rc <? 0 then create_graph_fail rc a p else
  let p := on_graph (fun g => add_link g "music" 0 "mixer" 0) p in
  rc <- fcall (avfilter_link "effect" 0 "mixer" 1) ;;
  if rc <? 0 then create_graph_fail rc a p else
  let p := on_graph (fun g => add_link g "effect" 0 "mixer" 1) p in
  rc <- fcall (avfilter_link "mixer" 0 "converter" 0) ;;
  if rc <? 0 then create_graph_fail rc a p else
  let p := on_graph (fun g => add_link g "mixer" 0 "converter" 0) p in
  rc <- fcall (avfilter_link "converter" 0 "sink" 0) ;;
  if rc <? 0 then create_graph_fail rc a p else
  let p := on_graph (fun g => add_link g "converter" 0 "sink" 0) p in
  oshu_log Debug "links ready" ;;;

  rc <- fcall avfilter_graph_config ;;
  if rc <? 0 then create_graph_fail rc a p else
  oshu_log Debug "graph ready" ;;;

  exec (av_buffersink_set_frame_size L sample_buffer_size) ;;;

  o <- call (av_frame_alloc L) ;;
  acquired OutputFrame o ;;;
  let p := set_output p o in
  assert (is_some (output p)) ;;;

  ret (0, set_pipeline a p)
  | _, _ => abort                  (* decoder->sample_fmt, stream->time_base *)
  end.

Definition oshu_audio_close (audio : option oshu_audio) : M lib (option oshu_audio) :=
  match audio with
  | None => ret None
  | Some a =>
      (if negb (device_id a =? 0)
       then free_and_null L Device                      (* SDL_CloseAudioDevice *)
       else ret tt) ;;;
      src <- oshu_close_stream L (source a) ;;
      free_and_null L Context ;;;                       (* free *)
      ret None
  end.

Definition oshu_audio_open_fail (a : oshu_audio) : M lib (Z * option oshu_audio) :=
  audio <- oshu_audio_close (Some a) ;;
  ret (-1, audio).

Definition oshu_audio_open (fuel : nat) (url : string) : M lib (Z * option oshu_audio) :=
  ok <- call (calloc L) ;;
  if negb ok then
    oshu_log Error "could not allocate the audio context" ;;;
    ret (-1, None)
  else
    emit (Acquire Context) ;;;
    let a := zero_audio in
    '(rc, src) <- oshu_open_stream L fuel url (source a) ;;
    let a := set_source a src in
    if rc <? 0 then oshu_audio_open_fail a else
    '(rc, a) <- open_device a ;;
    if rc <? 0 then oshu_audio_open_fail a else
    '(rc, a) <- create_graph a ;;
    if rc <? 0 then oshu_audio_open_fail a else
    dump_stream_info a ;;;
    ret (0, Some a).

Definition oshu_audio_play (a : oshu_audio) : M lib unit :=
  emit (PauseDevice (device_id a) 0) ;;;
  exec (SDL_PauseAudioDevice L (device_id a) 0).

Definition oshu_audio_pause (a : oshu_audio) : M lib unit :=
  emit (PauseDevice (device_id a) 1) ;;;
  exec (SDL_PauseAudioDevice L (device_id a) 1).

End Pipeline.

(** ** A scripted library

    An instance of the interface for running the code on concrete inputs:
    the state is the list of answers still to come for each call that is
    made repeatedly.  When a list is exhausted the demuxer, the decoder and
    the sink report the end of the stream and the other calls succeed. *)

Record script := {
  open_rc : Z;                                (* avformat_open_input *)
  best_stream_rc : Z;                         (* av_find_best_stream *)
  decoder_ctx : AVCodecContext;               (* what the decoder is opened as *)
  obtained : SDL_AudioSpec -> Z * SDL_AudioSpec;  (* SDL_OpenAudioDevice *)
  reads : list (Z * AVPacket);                (* av_read_frame *)
  sends : list Z;                             (* avcodec_send_packet *)
  recvs : list (Z * AVFrame);                 (* avcodec_receive_frame *)
  sinks : list (Z * AVFrame);                 (* av_buffersink_get_frame *)
  filter_rcs : list Z                         (* avfilter_call *)
}.

Definition pop {A} (d : A) (l : list A) : A * list A :=
  match l with
  | [] => (d, [])
  | x :: r => (x, r)
  end.

Definition script_read (s : script) : (Z * AVPacket) * script :=
  let (x, r) := pop (AVERROR_EOF, blank_packet) (reads s) in
  (x, {| open_rc := open_rc s; best_stream_rc := best_stream_rc s;
         decoder_ctx := decoder_ctx s; obtained := obtained s;
         reads := r; sends := sends s; recvs := recvs s; sinks := sinks s;
         filter_rcs := filter_rcs s |}).

Definition script_send (s : script) : Z * script :=
  let (x, r) := pop 0 (sends s) in
  (x, {| open_rc := open_rc s; best_stream_rc := best_stream_rc s;
         decoder_ctx := decoder_ctx s; obtained := obtained s;
         reads := reads s; sends := r; recvs := recvs s; sinks := sinks s;
         filter_rcs := filter_rcs s |}).

(** The decoder keeps saying that it is drained once it has said so. *)
Definition script_recv (s : script) : (Z * AVFrame) * script :=
  let (x, r) := pop (AVERROR_EOF, blank_frame) (recvs s) in
  if fst x =? AVERROR_EOF then (x, s)
  else
  (x, {| open_rc := open_rc s; best_stream_rc := best_stream_rc s;
         decoder_ctx := decoder_ctx s; obtained := obtained s;
         reads := reads s; sends := sends s; recvs := r; sinks := sinks s;
         filter_rcs := filter_rcs s |}).

Definition script_sink (s : script) : (Z * AVFrame) * script :=
  let (x, r) := pop (AVERROR_EOF, blank_frame) (sinks s) in
  (x, {| open_rc := open_rc s; best_stream_rc := best_stream_rc s;
         decoder_ctx := decoder_ctx s; obtained := obtained s;
         reads := reads s; sends := sends s; recvs := recvs s; sinks := r;
         filter_rcs := filter_rcs s |}).

Definition script_filter (s : script) : Z * script :=
  let (x, r) := pop 0 (filter_rcs s) in
  (x, {| open_rc := open_rc s; best_stream_rc := best_stream_rc s;
         decoder_ctx := decoder_ctx s; obtained := obtained s;
         reads := reads s; sends := sends s; recvs := recvs s; sinks := sinks s;
         filter_rcs := r |}).

Definition one_track : AVFormatContext :=
  {| streams := [ {| st_index := 0;
                     st_time_base := {| num := 1; den := 1000 |};
                     st_duration := 3000 |} ] |}.

Definition scripted : libav :=
  {| lib_state := script;
     avformat_open_input := fun _ s =>
       ((open_rc s, if open_rc s <? 0 then None else Some one_track), s);
     avformat_find_stream_info := fun s => (0, s);
     av_find_best_stream := fun s =>
       ((best_stream_rc s,
         if best_stream_rc s <? 0 then None else Some {| long_name := "codec" |}), s);
     av_read_frame := script_read;
     avcodec_alloc_context3 := fun _ s => (Some (decoder_ctx s), s);
     avcodec_parameters_to_context := fun _ s => ((0, decoder_ctx s), s);
     avcodec_open2 := fun _ s => ((0, decoder_ctx s), s);
     avcodec_send_packet := fun _ => script_send;
     avcodec_receive_frame := script_recv;
     av_frame_alloc := fun s => (Some blank_frame, s);
     avfilter_alloc := fun _ s => (true, s);
     avfilter_call := fun _ => script_filter;
     av_buffersink_set_frame_size := fun _ s => s;
     av_buffersrc_write_frame := fun _ _ s => (0, s);
     av_buffersrc_get_nb_failed_requests := fun _ _ => 1;
     av_buffersink_get_frame := script_sink;
     SDL_OpenAudioDevice := fun want s => (obtained s want, s);
     SDL_PauseAudioDevice := fun _ _ s => s;
     calloc := fun s => (true, s);
     release := fun _ s => s;
     block_reused := fun _ => true;
     memory_past := fun _ _ _ => 0 |}.

(** A device that is opened exactly as it is asked for. *)
Definition as_wanted (want : SDL_AudioSpec) : Z * SDL_AudioSpec := (2, want).

Definition mono_s16_44100 : AVCodecContext :=
  {| sample_rate := 44100; channels := 1; sample_fmt := AV_SAMPLE_FMT_S16;
     channel_layout := AV_CH_LAYOUT_MONO; bit_rate := 128000 |}.

(** The script of a source whose calls all succeed and that is at its end. *)
Definition quiet : script :=
  {| open_rc := 0; best_stream_rc := 0; decoder_ctx := mono_s16_44100;
     obtained := as_wanted; reads := []; sends := []; recvs := []; sinks := [];
     filter_rcs := [] |}.

Definition with_reads (s : script) (l : list (Z * AVPacket)) : script :=
  {| open_rc := open_rc s; best_stream_rc := best_stream_rc s;
     decoder_ctx := decoder_ctx s; obtained := obtained s;
     reads := l; sends := sends s; recvs := recvs s; sinks := sinks s;
     filter_rcs := filter_rcs s |}.
Definition with_sends (s : script) (l : list Z) : script :=
  {| open_rc := open_rc s; best_stream_rc := best_stream_rc s;
     decoder_ctx := decoder_ctx s; obtained := obtained s;
     reads := reads s; sends := l; recvs := recvs s; sinks := sinks s;
     filter_rcs := filter_rcs s |}.
Definition with_recvs (s : script) (l : list (Z * AVFrame)) : script :=
  {| open_rc := open_rc s; best_stream_rc := best_stream_rc s;
     decoder_ctx := decoder_ctx s; obtained := obtained s;
     reads := reads s; sends := sends s; recvs := l; sinks := sinks s;
     filter_rcs := filter_rcs s |}.
Definition with_sinks (s : script) (l : list (Z * AVFrame)) : script :=
  {| open_rc := open_rc s; best_stream_rc := best_stream_rc s;
     decoder_ctx := decoder_ctx s; obtained := obtained s;
     reads := reads s; sends := sends s; recvs := recvs s; sinks := l;
     filter_rcs := filter_rcs s |}.
Definition with_filter_rcs (s : script) (l : list Z) : script :=
  {| open_rc := open_rc s; best_stream_rc := best_stream_rc s;
     decoder_ctx := decoder_ctx s; obtained := obtained s;
     reads := reads s; sends := sends s; recvs := recvs s; sinks := sinks s;
     filter_rcs := l |}.
Definition frame_at (ts : Z) : AVFrame := {| best_effort_timestamp := ts; data0 := [] |}.
Definition packet_of (i : Z) : AVPacket := {| stream_index := i |}.


(** ** Reading the outcome of a run *)

Definition result_of {S A} (o : outcome S A) : option A :=
  match o with Ret a _ _ => Some a | _ => None end.
Definition state_of {S A} (o : outcome S A) : option S :=
  match o with Ret _ s _ => Some s | _ => None end.
Definition trace_of {S A} (o : outcome S A) : list event :=
  match o with Ret _ _ tr => tr | Abort tr => tr | Timeout => [] end.

(** The timestamps of the frames handed to the graph, in the order they
    were handed. *)
Definition handed_timestamps (tr : list event) : list Z :=
  flat_map (fun e => match e with
                     | WriteFrame _ (Some f) => [best_effort_timestamp f]
                     | _ => []
                     end) tr.

(** [current_timestamp] after frames with the timestamps [l] have been
    handed to the graph, in that order, starting from [cur]: each strictly
    positive timestamp overwrites it. *)
Definition stamp (tb : Q) (cur : Q) (l : list Z) : Q :=
  fold_left (fun c ts => if 0 <? ts then (tb * inject_Z ts)%Q else c) l cur.

(** How many times the resource [r] is acquired, and released, in a trace. *)
Definition count_acquire (r : resource) (tr : list event) : nat :=
  List.length (List.filter (fun x => match x with
                                     | Acquire r' => resource_eqb r r'
                                     | _ => false
                                     end) tr).
Definition count_release (r : resource) (tr : list event) : nat :=
  List.length (List.filter (fun x => match x with
                                     | Release r' => resource_eqb r r'
                                     | _ => false
                                     end) tr).

(** What a close of the context [a] is to release, in the order of
    [oshu_audio_close]. *)
Definition stream_releases (st : oshu_stream) : list event :=
  (if is_some (frame st) then [Release Frame] else []) ++
  (if is_some (decoder st) then [Release Decoder] else []) ++
  (if is_some (demuxer st) then [Release Demuxer] else []).

Definition close_releases (a : oshu_audio) : list event :=
  (if device_id a =? 0 then [] else [Release Device]) ++
  stream_releases (source a) ++ [Release Context].

(** ** The device and the decoder as callers *)

(** What the game reads as the audio clock, and the flag that ends the
    loop of the callback. *)
Definition snapshot (a : oshu_audio) : Q * Z := (current_timestamp a, finished a).

Section Drivers.
Context (L : libav).
Local Abbreviation lib := (lib_state L).

(** The device asks for one buffer after the other; the snapshots are taken
    when each callback returns. *)
Fixpoint run_callbacks (fuel : nat) (reqs : list (list Z * Z)) (a : oshu_audio)
  : M lib (oshu_audio * list (Q * Z)) :=
  match reqs with
  | [] => ret (a, [])
  | (buffer, len) :: rest =>
      '(a, _) <- audio_callback L fuel a buffer len ;;
      '(a', snaps) <- run_callbacks fuel rest a ;;
      ret (a', snapshot a :: snaps)
  end.

(** [n] calls of [oshu_next_frame] in a row, and the codes they return. *)
Fixpoint repeat_next_frame (fuel : nat) (n : nat) (st : oshu_stream)
  : M lib (list Z * oshu_stream) :=
  match n with
  | O => ret ([], st)
  | S n' =>
      '(rc, st) <- oshu_next_frame L fuel st ;;
      '(rcs, st) <- repeat_next_frame fuel n' st ;;
      ret (rc :: rcs, st)
  end.

End Drivers.

(** [R] holds between each element and the next, starting from [x]. *)
Fixpoint chain {A} (R : A -> A -> Prop) (x : A) (l : list A) : Prop :=
  match l with
  | [] => True
  | y :: r => R x y /\ chain R y r
  end.

(** ** Option strings of libavfilter *)





(** ** The graph at work *)

Inductive amix_duration := Longest | Shortest | First.



(** Two inputs summed sample by sample, for as long as either lasts. *)
Fixpoint mix_sum (x y : list Q) : list Q :=
  match x, y with
  | [], _ => y
  | _, [] => x
  | a :: x', b :: y' => (a + b)%Q :: mix_sum x' y'
  end.

(** Modelled from the spec: the mix node of the graph, the [amix] filter of
    libavfilter, which is not part of the repository.  The inputs are summed
    and the [duration] option decides where the output ends: with the longest
    input, with the shortest, or with the first. *)
Definition amix (d : amix_duration) (first second : list Q) : list Q :=
  match d with
  | Longest => mix_sum first second
  | Shortest => firstn (Nat.min (List.length first) (List.length second)) (mix_sum first second)
  | First => firstn (List.length first) (mix_sum first second)
  end.





(** ** The contract of the decoder at the end of the stream *)

(** libavcodec: once [avcodec_receive_frame] has returned [AVERROR_EOF], the
    decoder is drained and the next call returns [AVERROR_EOF] again. *)
Definition eof_is_sticky (L : libav) : Prop :=
  forall s f s',
    avcodec_receive_frame L s = ((AVERROR_EOF, f), s') ->
    fst (fst (avcodec_receive_frame L s')) = AVERROR_EOF.

(** ** Concrete inputs *)

(** A stream as [open_demuxer] and [open_decoder] leave it. *)
Definition opened : oshu_stream :=
  {| demuxer := Some one_track;
     codec := Some {| long_name := "codec" |};
     stream := nth_error (streams one_track) 0;
     decoder := Some mono_s16_44100;
     frame := Some blank_frame;
     packet := blank_packet;
     time_base := av_q2d {| num := 1; den := 1000 |} |}.

(** Two packets of the audio track: the decoder rejects the data of the
    first one and would decode the second one to a frame. *)
Definition one_bad_packet : script :=
  with_recvs
    (with_sends
       (with_reads quiet [(0, packet_of 0); (0, packet_of 0)])
       [AVERROR_INVALIDDATA; 0])
    [(AVERROR_EAGAIN, blank_frame); (0, frame_at 7)].

(** The same source without the bad packet. *)
Definition good_packet : script :=
  with_recvs
    (with_sends (with_reads quiet [(0, packet_of 0)]) [0])
    [(AVERROR_EAGAIN, blank_frame); (0, frame_at 7)].

(** A stream as [open_demuxer] leaves it, before the decoder is opened. *)
Definition demuxed : oshu_stream :=
  {| demuxer := Some one_track;
     codec := Some {| long_name := "codec" |};
     stream := nth_error (streams one_track) 0;
     decoder := None;
     frame := None;
     packet := blank_packet;
     time_base := av_q2d {| num := 1; den := 1000 |} |}.

(** The strictly positive timestamps among the frames handed to the graph:
    the ones that are written to the clock. *)
Definition clock_writes (tr : list event) : list Z :=
  List.filter (Z.ltb 0) (handed_timestamps tr).

(** A context as a successful [oshu_audio_open] returns it, and one that
    has played to its end. *)
Definition playing : oshu_audio :=
  Eval vm_compute in
    match result_of (oshu_audio_open scripted 5 "song.mp3"
                       (with_recvs quiet [(0, frame_at 0)])) with
    | Some (_, Some a) => a
    | _ => zero_audio
    end.

(** The sink asks for input, then delivers a buffer, twice; [stamps] are
    the timestamps of the two frames the decoder hands out meanwhile. *)
Definition two_buffers (stamps : list Z) : script :=
  with_sinks
    (with_recvs quiet (map (fun ts => (0, frame_at ts)) stamps))
    [(AVERROR_EAGAIN, blank_frame); (0, {| best_effort_timestamp := 0; data0 := [7; 7] |});
     (AVERROR_EAGAIN, blank_frame); (0, {| best_effort_timestamp := 0; data0 := [8; 8] |})].

Definition two_requests : list (list Z * Z) := [([0; 0], 2); ([0; 0], 2)].

Definition forward_run : outcome script (oshu_audio * list (Q * Z)) :=
  Eval vm_compute in run_callbacks scripted 5 two_requests playing (two_buffers [50; 100]).

Definition backward_run : outcome script (oshu_audio * list (Q * Z)) :=
  Eval vm_compute in run_callbacks scripted 5 two_requests playing (two_buffers [100; 50]).

Definition waiting_run : outcome script (oshu_audio * list (Q * Z)) :=
  Eval vm_compute in run_callbacks scripted 5 two_requests playing (two_buffers [0; -3]).

(** A source for which the music buffer cannot be initialized: the second
    call that configures the graph, [avfilter_init_str] on the music source,
    returns [AVERROR(EINVAL)], as it does for a decoder that reports no
    channel layout. *)
Definition graph_fails : script :=
  with_filter_rcs (with_recvs quiet [(0, frame_at 0)]) [0; -22].

(** ** Invariants of the decoding steps *)

(** Decoding touches the packet and the frame of the stream, nothing else. *)
Definition same_handles (st st' : oshu_stream) : Prop :=
  demuxer st' = demuxer st /\ codec st' = codec st /\ stream st' = stream st /\
  decoder st' = decoder st /\ time_base st' = time_base st /\
  is_some (frame st') = is_some (frame st).

(** What a context keeps while frames are decoded and handed over. *)
Definition clock_step (a a' : oshu_audio) (tr : list event) : Prop :=
  time_base (source a') = time_base (source a) /\
  current_timestamp a' =
    stamp (time_base (source a)) (current_timestamp a) (handed_timestamps tr).

(** ** Resources held *)

(** What an event adds to the number of resources [r] the program holds. *)
Definition event_weight (r : resource) (e : event) : Z :=
  match e with
  | Acquire r' => if resource_eqb r r' then 1 else 0
  | Release r' => if resource_eqb r r' then -1 else 0
  | _ => 0
  end.

(** The acquisitions of [r] in a trace, less its releases. *)
Fixpoint held (r : resource) (tr : list event) : Z :=
  match tr with
  | [] => 0
  | e :: tr' => event_weight r e + held r tr'
  end.

(** A trace of log lines only. *)
Definition is_log (e : event) : Prop :=
  match e with
  | Log _ _ | AvError _ => True
  | _ => False
  end.
Definition logs_only (tr : list event) : Prop := Forall is_log tr.

(** One for a pointer that is not null. *)
Definition own {A} (p : option A) : Z := if is_some p then 1 else 0.

(** What a stream owns: what [oshu_close_stream] is to release. *)
Definition stream_owns (st : oshu_stream) (r : resource) : Z :=
  match r with
  | Demuxer => own (demuxer st)
  | Decoder => own (decoder st)
  | Frame => own (frame st)
  | _ => 0
  end.

(** What an audio context owns: itself, its device when it has one, its
    graph and output frame, and what its stream owns. *)
Definition audio_owns (a : oshu_audio) (r : resource) : Z :=
  match r with
  | Context => 1
  | Device => if device_id a =? 0 then 0 else 1
  | Graph => own (graph (pipeline a))
  | OutputFrame => own (output (pipeline a))
  | Params => 0
  | _ => stream_owns (source a) r
  end.

(** The pointers of a pipeline to its graph and its filters. *)
Definition same_topology (p p' : oshu_pipeline) : Prop :=
  graph p' = graph p /\ music p' = music p /\ effect p' = effect p /\
  mixer p' = mixer p /\ converter p' = converter p /\ sink p' = sink p.

(** The four links of the graph, in the order they are made. *)
Definition pipeline_links : list AVFilterLink :=
  [ {| link_src := "music"; link_srcpad := 0; link_dst := "mixer"; link_dstpad := 0 |};
    {| link_src := "effect"; link_srcpad := 0; link_dst := "mixer"; link_dstpad := 1 |};
    {| link_src := "mixer"; link_srcpad := 0; link_dst := "converter"; link_dstpad := 0 |};
    {| link_src := "converter"; link_srcpad := 0; link_dst := "sink"; link_dstpad := 0 |} ].

(** The pipeline as a successful [create_graph] leaves it on the context
    [a]: the graph with its four links; the music source declared with the
    format, layout and rate of the decoder and the time base of the track;
    the effect source declared as stereo float at the rate of the device,
    its time base being that of the track or zero according to where the
    store through the freed pointer has landed; the mixer and the converter
    with their option strings; the sink. *)
Definition as_built (a : oshu_audio) (p : oshu_pipeline) : Prop :=
  exists d trk tb,
    decoder (source a) = Some d /\
    stream (source a) = Some trk /\
    (tb = st_time_base trk \/ tb = par_time_base fresh_params) /\
    graph p = Some {| links := pipeline_links |} /\
    music p =
      Some (with_params (new_filter "abuffer" "music")
              {| par_format := Some (sample_fmt d);
                 par_time_base := st_time_base trk;
                 par_channel_layout := channel_layout d;
                 par_sample_rate := sample_rate d |}) /\
    effect p =
      Some (with_params (new_filter "abuffer" "effect")
              {| par_format := Some AV_SAMPLE_FMT_FLT;
                 par_time_base := tb;
                 par_channel_layout := AV_CH_LAYOUT_STEREO;
                 par_sample_rate := freq (device_spec a) |}) /\
    mixer p =
      Some (with_args (new_filter "amix" "mixer") (Some "inputs=2:duration=first")) /\
    converter p =
      Some (with_args (new_filter "aformat" "converter") (Some "sample_fmts=flt")) /\
    sink p = Some (new_filter "abuffersink" "sink").

(** A packet of another track, then a packet of the audio track that the
    decoder takes, then a frame. *)
Definition foreign_then_audio : script :=
  with_recvs
    (with_reads quiet [(0, packet_of 3); (0, packet_of 0)])
    [(AVERROR_EAGAIN, blank_frame); (0, frame_at 7)].

(** The container is at its end and the decoder still holds a frame. *)
Definition buffered_frame : script :=
  with_recvs quiet [(AVERROR_EAGAIN, blank_frame); (0, frame_at 9)].

(** The demuxer, read [n] times from the state [s], delivers [n] packets
    that are not of the track [trk] and is left in the state [s']. *)
Inductive foreign_packets (L : libav) (trk : AVStream)
  : nat -> lib_state L -> lib_state L -> Prop :=
| foreign_none s : foreign_packets L trk 0 s s
| foreign_next n s rd pkt s1 s' :
    av_read_frame L s = ((rd, pkt), s1) ->
    0 <= rd ->
    stream_index pkt <> st_index trk ->
    foreign_packets L trk n s1 s' ->
    foreign_packets L trk (S n) s s'.

(** Two packets of other tracks before the packet of the audio track. *)
Definition two_foreign_then_audio : script :=
  with_reads quiet [(0, packet_of 3); (0, packet_of 5); (0, packet_of 0)].

(** Rounds of the loop of [oshu_next_frame] in which the decoder asks for
    input, the demuxer delivers packets of other tracks and then a packet of
    the audio track, and the decoder takes that packet.  The index bounds
    the iterations the rounds take. *)
Inductive decoder_fed (L : libav) (trk : AVStream)
  : nat -> lib_state L -> lib_state L -> Prop :=
| fed_none s : decoder_fed L trk 0 s s
| fed_next b k s f s1 s2 rd pkt s3 rc s4 s' :
    avcodec_receive_frame L s = ((AVERROR_EAGAIN, f), s1) ->
    foreign_packets L trk k s1 s2 ->
    av_read_frame L s2 = ((rd, pkt), s3) ->
    0 <= rd ->
    stream_index pkt = st_index trk ->
    avcodec_send_packet L (Some pkt) s3 = (rc, s4) ->
    0 <= rc ->
    decoder_fed L trk b s4 s' ->
    decoder_fed L trk (S (k + b)) s s'.

(** The script of a source with these answers still to come from the
    demuxer, from [avcodec_send_packet] and from [avcodec_receive_frame]. *)
Definition script_of (rd : list (Z * AVPacket)) (sd : list Z)
    (rv : list (Z * AVFrame)) : script :=
  with_recvs (with_sends (with_reads quiet rd) sd) rv.

(** The decoder takes a first packet of the audio track and asks for more;
    after a packet of another track comes a packet of the audio track whose
    data it rejects; the packet after that one would decode to a frame. *)
Definition bad_packet_later : script :=
  with_recvs
    (with_sends
       (with_reads quiet [(0, packet_of 0); (0, packet_of 3); (0, packet_of 0);
                          (0, packet_of 0)])
       [0; AVERROR_INVALIDDATA; 0])
    [(AVERROR_EAGAIN, blank_frame); (AVERROR_EAGAIN, blank_frame); (0, frame_at 7)].

(** What the callback leaves of a context: the graph and its filters, the
    device, the handles of the stream; the overlay is as it was or dropped,
    the flag as it was or set. *)
Definition keeps (a a' : oshu_audio) : Prop :=
  same_topology (pipeline a) (pipeline a') /\
  device_id a' = device_id a /\
  device_spec a' = device_spec a /\
  same_handles (source a) (source a') /\
  (overlay a' = overlay a \/ overlay a' = None) /\
  (finished a' = finished a \/ finished a' = 1).

(** What the callback does to the outside: it logs, it hands frames or the
    end marker to the music source, and the end marker to the effect
    source. *)
Definition callback_event (p : oshu_pipeline) (e : event) : Prop :=
  match e with
  | Log _ _ | AvError _ => True
  | WriteFrame c w => c = music p \/ (c = effect p /\ w = None)
  | _ => False
  end.

(** A context that has played to its end. *)
Definition played : oshu_audio := set_finished playing 1.

(** The filter and the instance name behind each of the five filter
    pointers of a pipeline. *)
Definition filter_names (p : oshu_pipeline) : list (option (string * string)) :=
  map (option_map (fun c => (ctx_filter c, ctx_name c)))
      [music p; effect p; mixer p; converter p; sink p].

(** The scripted library when no frame can be allocated:
    [av_frame_alloc] returns null. *)
Definition out_of_frames : libav :=
  {| lib_state := script;
     avformat_open_input := avformat_open_input scripted;
     avformat_find_stream_info := avformat_find_stream_info scripted;
     av_find_best_stream := av_find_best_stream scripted;
     av_read_frame := av_read_frame scripted;
     avcodec_alloc_context3 := avcodec_alloc_context3 scripted;
     avcodec_parameters_to_context := avcodec_parameters_to_context scripted;
     avcodec_open2 := avcodec_open2 scripted;
     avcodec_send_packet := avcodec_send_packet scripted;
     avcodec_receive_frame := avcodec_receive_frame scripted;
     av_frame_alloc := fun s => (None, s);
     avfilter_alloc := avfilter_alloc scripted;
     avfilter_call := avfilter_call scripted;
     av_buffersink_set_frame_size := av_buffersink_set_frame_size scripted;
     av_buffersrc_write_frame := av_buffersrc_write_frame scripted;
     av_buffersrc_get_nb_failed_requests := av_buffersrc_get_nb_failed_requests scripted;
     av_buffersink_get_frame := av_buffersink_get_frame scripted;
     SDL_OpenAudioDevice := SDL_OpenAudioDevice scripted;
     SDL_PauseAudioDevice := SDL_PauseAudioDevice scripted;
     calloc := calloc scripted;
     release := release scripted;
     block_reused := block_reused scripted;
     memory_past := memory_past scripted |}.

(** The scripted library on a container of two tracks, of which the
    second is the audio track: [av_find_best_stream] returns 1. *)
Definition second_track : libav :=
  {| lib_state := script;
     avformat_open_input := fun _ s =>
       ((0, Some {| streams :=
                      [ {| st_index := 0; st_time_base := {| num := 1; den := 25 |};
                           st_duration := 75 |};
                        {| st_index := 1; st_time_base := {| num := 1; den := 1000 |};
                           st_duration := 3000 |} ] |}), s);
     avformat_find_stream_info := avformat_find_stream_info scripted;
     av_find_best_stream := fun s => ((1, Some {| long_name := "codec" |}), s);
     av_read_frame := av_read_frame scripted;
     avcodec_alloc_context3 := avcodec_alloc_context3 scripted;
     avcodec_parameters_to_context := avcodec_parameters_to_context scripted;
     avcodec_open2 := avcodec_open2 scripted;
     avcodec_send_packet := avcodec_send_packet scripted;
     avcodec_receive_frame := avcodec_receive_frame scripted;
     av_frame_alloc := av_frame_alloc scripted;
     avfilter_alloc := avfilter_alloc scripted;
     avfilter_call := avfilter_call scripted;
     av_buffersink_set_frame_size := av_buffersink_set_frame_size scripted;
     av_buffersrc_write_frame := av_buffersrc_write_frame scripted;
     av_buffersrc_get_nb_failed_requests := av_buffersrc_get_nb_failed_requests scripted;
     av_buffersink_get_frame := av_buffersink_get_frame scripted;
     SDL_OpenAudioDevice := SDL_OpenAudioDevice scripted;
     SDL_PauseAudioDevice := SDL_PauseAudioDevice scripted;
     calloc := calloc scripted;
     release := release scripted;
     block_reused := block_reused scripted;
     memory_past := memory_past scripted |}.

(** * Properties *)

(** ** Reasoning in the monad *)

Lemma prepend_Ret_inv {S A} tr (o : outcome S A) a s t :
  prepend tr o = Ret a s t -> exists t', o = Ret a s t' /\ t = tr ++ t'.
Proof.
  destruct o; simpl; intros H; inversion H; subst.
  eexists; split; reflexivity.
Qed.

Lemma bind_Ret_inv {S A B} (m : M S A) (k : A -> M S B) s b s2 tr :
  bind m k s = Ret b s2 tr ->
  exists a s1 tr1 tr2,
    m s = Ret a s1 tr1 /\ k a s1 = Ret b s2 tr2 /\ tr = tr1 ++ tr2.
Proof.
  unfold bind. destruct (m s) as [a s1 tr1| |]; try discriminate.
  intros H. apply prepend_Ret_inv in H as (t' & E & ->).
  exists a, s1, tr1, t'. auto.
Qed.

Lemma bind_Ret {S A B} (m : M S A) (k : A -> M S B) s a s1 tr1 :
  m s = Ret a s1 tr1 -> bind m k s = prepend tr1 (k a s1).
Proof. unfold bind. intros ->. reflexivity. Qed.

(** Case analysis on the next call of a run that returned. *)
Ltac head_scrutinee t :=
  lazymatch t with
  | match ?x with _ => _ end => head_scrutinee x
  | (match ?x with _ => _ end) _ => head_scrutinee x
  | _ => t
  end.

Ltac crunch_in H :=
  repeat (
    cbv beta iota zeta delta [bind ret emit call exec query assert abort timeout prepend
                              oshu_log oshu_av_error acquired free_and_null] in H;
    lazymatch type of H with
    | match ?x with _ => _ end = _ =>
        let y := head_scrutinee x in destruct y eqn:?
    | (match ?x with _ => _ end) _ = _ =>
        let y := head_scrutinee x in destruct y eqn:?
    end;
    try discriminate H).

Lemma codes_distinct :
  AVERROR_EOF <> 0 /\ AVERROR_EOF <> -1 /\ AVERROR_EAGAIN <> AVERROR_EOF /\
  AVERROR_EOF < 0 /\ AVERROR_EAGAIN < 0 /\ AVERROR_INVALIDDATA < 0.
Proof. unfold AVERROR_EOF, AVERROR_EAGAIN, AVERROR_INVALIDDATA. lia. Qed.

Section StreamFacts.
Context (L : libav).

Lemma same_handles_refl st : same_handles st st.
Proof. unfold same_handles; auto 10. Qed.

Lemma same_handles_trans st1 st2 st3 :
  same_handles st1 st2 -> same_handles st2 st3 -> same_handles st1 st3.
Proof.
  unfold same_handles. intros (?&?&?&?&?&?) (?&?&?&?&?&?).
  repeat split; congruence.
Qed.

Lemma next_page_end_same rc st s c st' s' tr :
  next_page_end L rc st s = Ret (c, st') s' tr ->
  same_handles st st' /\ frame st' = frame st.
Proof.
  unfold next_page_end. intros H. crunch_in H; inversion H; subst;
    (split; [unfold same_handles; auto 10 | reflexivity]).
Qed.

Lemma next_page_same fuel : forall st s c st' s' tr,
  next_page L fuel st s = Ret (c, st') s' tr ->
  same_handles st st' /\ frame st' = frame st.
Proof.
  induction fuel as [|fuel IH]; intros st s c st' s' tr H; simpl in H.
  - discriminate.
  - crunch_in H.
    all: try (inversion H; subst;
              match goal with
              | E : next_page_end _ _ _ _ = _ |- _ => apply next_page_end_same in E; exact E
              end).
    inversion H; subst.
    match goal with E : next_page _ _ _ _ = _ |- _ => apply IH in E; exact E end.
Qed.

(** A call of [oshu_next_frame] returns 0, -1 or [AVERROR_EOF]; it returns
    [AVERROR_EOF] right after the decoder has, and 0 right after the decoder
    has handed out a frame, which is then the frame of the stream. *)
Lemma oshu_next_frame_inv fuel : forall st s rc st' s' tr,
  oshu_next_frame L fuel st s = Ret (rc, st') s' tr ->
  same_handles st st' /\
  ((rc = 0 /\
    exists s0 f, avcodec_receive_frame L s0 = ((0, f), s') /\
                 frame st' = option_map (fun _ => f) (frame st)) \/
   (rc = AVERROR_EOF /\
    exists s0 f, avcodec_receive_frame L s0 = ((AVERROR_EOF, f), s')) \/
   rc = -1).
Proof.
  induction fuel as [|fuel IH]; intros st s rc st' s' tr H; simpl in H.
  - discriminate.
  - assert (Hst : forall f, same_handles st (set_frame st (store (frame st) f))).
    { intros f. unfold same_handles; simpl. destruct (frame st); auto 10. }
    crunch_in H.
    + inversion H; subst. split; [apply Hst|]. left. split; [reflexivity|].
      apply Z.eqb_eq in Heqb; subst. eexists _, _. split; [eassumption|].
      simpl. destruct (frame st); reflexivity.
    + inversion H; subst.
      apply next_page_same in Heqo as [Hs _].
      split; [eapply same_handles_trans; [apply Hst | exact Hs] | auto].
    + inversion H; subst.
      pose proof Heqo as Hp. apply next_page_same in Hp as [Hs Hf].
      apply IH in Heqo0 as [Hs' Hr].
      split; [eapply same_handles_trans; [apply Hst | eapply same_handles_trans; eassumption] |].
      destruct Hr as [[-> (? & f' & E & F)]|[[-> (? & f' & E)]| ->]]; auto.
      * left. split; [reflexivity|]. eexists _, f'. split; [exact E|].
        rewrite F, Hf. simpl. destruct (frame st); reflexivity.
      * right. left. split; [reflexivity|]. eauto.
    + inversion H; subst. split; [apply Hst|]. right. left. split; [reflexivity|].
      apply Z.eqb_eq in Heqb1; subst. eauto.
    + inversion H; subst. split; [apply Hst|]. auto.
Qed.

(** Once the decoder is at its end, a call of [oshu_next_frame] says so at
    once. *)
Lemma oshu_next_frame_at_eof fuel st s f s' :
  avcodec_receive_frame L s = ((AVERROR_EOF, f), s') ->
  oshu_next_frame L (S fuel) st s =
    Ret (AVERROR_EOF, set_frame st (store (frame st) f)) s'
        [Log Debug "reached the last frame"].
Proof.
  intros E. simpl. unfold bind, call. rewrite E. reflexivity.
Qed.

End StreamFacts.

(** ** The stream decoder *)

Lemma prepend_nil {S A} (o : outcome S A) : prepend [] o = o.
Proof. destruct o; reflexivity. Qed.

Lemma set_packet_twice (st : oshu_stream) (p q : AVPacket) :
  set_packet (set_packet st p) q = set_packet st q.
Proof. reflexivity. Qed.

Lemma store_store {A} (p : option A) (x y : A) : store (store p x) y = store p y.
Proof. destruct p; reflexivity. Qed.

Section DecodeErrors.
Context (L : libav) (trk : AVStream).

(** One packet of another track: [next_page] unreferences it and reads on. *)
Lemma next_page_foreign m st (s : lib_state L) rd pkt s1 :
  stream st = Some trk ->
  av_read_frame L s = ((rd, pkt), s1) ->
  0 <= rd ->
  stream_index pkt <> st_index trk ->
  next_page L (S m) st s = next_page L m (set_packet st blank_packet) s1.
Proof.
  intros Htrk Hread Hrd Hidx.
  cbn [next_page]. unfold bind at 1. unfold call at 1. rewrite Hread.
  cbn [prepend].
  replace (rd =? AVERROR_EOF) with false
    by (symmetry; apply Z.eqb_neq; pose proof codes_distinct; lia).
  replace (rd <? 0) with false by (symmetry; apply Z.ltb_ge; exact Hrd).
  cbn [stream set_packet packet]. rewrite Htrk.
  replace (stream_index pkt =? st_index trk) with false
    by (symmetry; apply Z.eqb_neq; exact Hidx).
  apply prepend_nil.
Qed.

(** A packet of the audio track: [next_page] sends it and ends on the code
    of the decoder, whatever packets of other tracks came before it. *)
Lemma next_page_sends k : forall m st (s s2 : lib_state L) rd pkt s3 rc s4,
  stream st = Some trk ->
  foreign_packets L trk k s s2 ->
  av_read_frame L s2 = ((rd, pkt), s3) ->
  0 <= rd ->
  stream_index pkt = st_index trk ->
  avcodec_send_packet L (Some pkt) s3 = (rc, s4) ->
  next_page L (k + S m) st s =
    if rc <? 0 then Ret (-1, set_packet st blank_packet) s4 [AvError rc]
    else Ret (0, set_packet st blank_packet) s4 [].
Proof.
  induction k as [|k IH]; intros m st s s2 rd pkt s3 rc s4 Htrk Hf Hread Hrd Hidx Hsend.
  - inversion Hf; subst.
    cbn [Nat.add next_page]. unfold bind at 1. unfold call at 1. rewrite Hread.
    cbn [prepend].
    replace (rd =? AVERROR_EOF) with false
      by (symmetry; apply Z.eqb_neq; pose proof codes_distinct; lia).
    replace (rd <? 0) with false by (symmetry; apply Z.ltb_ge; exact Hrd).
    cbn [stream set_packet packet]. rewrite Htrk, Hidx, Z.eqb_refl.
    unfold bind at 1. unfold call at 1. rewrite Hsend.
    unfold next_page_end. destruct (rc <? 0); reflexivity.
  - inversion Hf as [|k' s0 rd0 pkt0 s1 s2' Hread0 Hrd0 Hidx0 Hrest]; subst.
    change (S k + S m)%nat with (S (k + S m)).
    rewrite (next_page_foreign _ st s rd0 pkt0 s1 Htrk Hread0 Hrd0 Hidx0).
    rewrite (IH m (set_packet st blank_packet) s1 s2 rd pkt s3 rc s4
               Htrk Hrest Hread Hrd Hidx Hsend).
    reflexivity.
Qed.

(** The stream after a round of the loop in which the decoder has written
    [f] to the frame and a packet has been read and unreferenced. *)
Lemma round_twice (st : oshu_stream) (f g : AVFrame) :
  set_packet
    (set_frame (set_packet (set_frame st (store (frame st) f)) blank_packet)
       (store (frame (set_packet (set_frame st (store (frame st) f)) blank_packet)) g))
    blank_packet =
  set_packet (set_frame st (store (frame st) g)) blank_packet.
Proof. destruct st as [dm cd sm dc fr pk tb]. destruct fr; reflexivity. Qed.

End DecodeErrors.

(** C3, as amended.  A decode error on a packet is not skipped.  Take any
    call of [oshu_next_frame]: the decoder may have asked for input and
    taken packets of the audio track any number of times, and packets of
    other tracks may have been passed over at any point.  As soon as
    [avcodec_send_packet] returns a negative code for a packet of the audio
    track, whatever the code, transient or fatal, [next_page] logs it and
    [oshu_next_frame] logs an abrupt end of stream and returns -1: the
    library is left in the state of that call, without another call to the
    demuxer or the decoder. *)
Theorem C3_decode_error_ends_the_call
    (L : libav) (trk : AVStream) (b k fuel : nat) (st : oshu_stream)
    (s s0 s1 s2 s3 s4 : lib_state L)
    (f : AVFrame) (rd : Z) (pkt : AVPacket) (rc : Z) :
  stream st = Some trk ->
  decoder_fed L trk b s s0 ->
  avcodec_receive_frame L s0 = ((AVERROR_EAGAIN, f), s1) ->
  foreign_packets L trk k s1 s2 ->
  av_read_frame L s2 = ((rd, pkt), s3) ->
  0 <= rd ->
  stream_index pkt = st_index trk ->
  avcodec_send_packet L (Some pkt) s3 = (rc, s4) ->
  rc < 0 ->
  oshu_next_frame L (b + S (S k) + fuel) st s =
    Ret (-1, set_packet (set_frame st (store (frame st) f)) blank_packet) s4
        [AvError rc; Log Warn "abrupt end of stream"].
Proof.
  intros Htrk Hfed Hrecv Hfor Hread Hrd Hidx Hsend Hrc.
  pose proof codes_distinct as (_ & _ & Hne & Heof & _).
  revert st fuel Htrk.
  induction Hfed as [s0|b k0 s g sa sb rd0 pkt0 sc rc0 sd s0 Hrecv0 Hfor0 Hread0
                          Hrd0 Hidx0 Hsend0 Hrc0 Hrest IH];
    intros st fuel Htrk.
  - replace (0 + S (S k) + fuel)%nat with (S (k + S fuel))%nat by lia.
    cbn [oshu_next_frame]. unfold bind at 1. unfold call at 1. rewrite Hrecv.
    change (AVERROR_EAGAIN =? 0) with false. cbv iota.
    rewrite Z.eqb_refl. cbn [prepend].
    unfold bind at 1.
    rewrite (next_page_sends L trk k fuel (set_frame st (store (frame st) f))
               s1 s2 rd pkt s3 rc s4 Htrk Hfor Hread Hrd Hidx Hsend).
    replace (rc <? 0) with true by (symmetry; apply Z.ltb_lt; exact Hrc).
    reflexivity.
  - replace (S (k0 + b) + S (S k) + fuel)%nat
      with (S (k0 + S (b + S k + fuel)))%nat by lia.
    cbn [oshu_next_frame]. unfold bind at 1. unfold call at 1. rewrite Hrecv0.
    change (AVERROR_EAGAIN =? 0) with false. cbv iota.
    rewrite Z.eqb_refl. cbn [prepend].
    unfold bind at 1.
    rewrite (next_page_sends L trk k0 _ (set_frame st (store (frame st) g))
               sa sb rd0 pkt0 sc rc0 sd Htrk Hfor0 Hread0 Hrd0 Hidx0 Hsend0).
    replace (rc0 <? 0) with false by (symmetry; apply Z.ltb_ge; exact Hrc0).
    cbv iota beta. cbn [prepend app].
    replace (k0 + S (b + S k + fuel))%nat with (b + S (S k) + (k0 + fuel))%nat by lia.
    change (0 <? 0) with false. cbv iota. rewrite !prepend_nil.
    rewrite (IH Hrecv (set_packet (set_frame st (store (frame st) g)) blank_packet)
               (k0 + fuel)%nat Htrk).
    rewrite round_twice. reflexivity.
Qed.

Lemma C3_decode_error_ends_the_call_witness :
  oshu_next_frame scripted 4 opened bad_packet_later =
    Ret (-1, set_packet (set_frame opened (store (frame opened) blank_frame))
                        blank_packet)
        (script_of [(0, packet_of 0)] [0] [(0, frame_at 7)])
        [AvError AVERROR_INVALIDDATA; Log Warn "abrupt end of stream"].
Proof.
  apply (C3_decode_error_ends_the_call scripted
           {| st_index := 0; st_time_base := {| num := 1; den := 1000 |};
              st_duration := 3000 |}
           1 1 0 opened
           bad_packet_later
           (script_of [(0, packet_of 3); (0, packet_of 0); (0, packet_of 0)]
                      [AVERROR_INVALIDDATA; 0]
                      [(AVERROR_EAGAIN, blank_frame); (0, frame_at 7)])
           (script_of [(0, packet_of 3); (0, packet_of 0); (0, packet_of 0)]
                      [AVERROR_INVALIDDATA; 0] [(0, frame_at 7)])
           (script_of [(0, packet_of 0); (0, packet_of 0)]
                      [AVERROR_INVALIDDATA; 0] [(0, frame_at 7)])
           (script_of [(0, packet_of 0)] [AVERROR_INVALIDDATA; 0] [(0, frame_at 7)])
           (script_of [(0, packet_of 0)] [0] [(0, frame_at 7)])
           blank_frame 0 (packet_of 0) AVERROR_INVALIDDATA).
  - reflexivity.
  - apply (fed_next scripted _ 0 0
             bad_packet_later blank_frame
             (script_of [(0, packet_of 0); (0, packet_of 3); (0, packet_of 0);
                         (0, packet_of 0)]
                        [0; AVERROR_INVALIDDATA; 0]
                        [(AVERROR_EAGAIN, blank_frame); (0, frame_at 7)])
             (script_of [(0, packet_of 0); (0, packet_of 3); (0, packet_of 0);
                         (0, packet_of 0)]
                        [0; AVERROR_INVALIDDATA; 0]
                        [(AVERROR_EAGAIN, blank_frame); (0, frame_at 7)])
             0 (packet_of 0)
             (script_of [(0, packet_of 3); (0, packet_of 0); (0, packet_of 0)]
                        [0; AVERROR_INVALIDDATA; 0]
                        [(AVERROR_EAGAIN, blank_frame); (0, frame_at 7)])
             0
             (script_of [(0, packet_of 3); (0, packet_of 0); (0, packet_of 0)]
                        [AVERROR_INVALIDDATA; 0]
                        [(AVERROR_EAGAIN, blank_frame); (0, frame_at 7)])
             (script_of [(0, packet_of 3); (0, packet_of 0); (0, packet_of 0)]
                        [AVERROR_INVALIDDATA; 0]
                        [(AVERROR_EAGAIN, blank_frame); (0, frame_at 7)])).
    + vm_compute. reflexivity.
    + apply foreign_none.
    + vm_compute. reflexivity.
    + discriminate.
    + reflexivity.
    + vm_compute. reflexivity.
    + discriminate.
    + apply fed_none.
  - vm_compute. reflexivity.
  - apply (foreign_next scripted _ 0 _ 0 (packet_of 3)
             (script_of [(0, packet_of 0); (0, packet_of 0)]
                        [AVERROR_INVALIDDATA; 0] [(0, frame_at 7)])).
    + vm_compute. reflexivity.
    + discriminate.
    + discriminate.
    + apply foreign_none.
  - vm_compute. reflexivity.
  - discriminate.
  - reflexivity.
  - vm_compute. reflexivity.
  - reflexivity.
Defined.

(** C3, as stated, fails: the decoder rejects the data of one packet with
    [AVERROR_INVALIDDATA]; the call returns -1 with the next packet and its
    frame still to come, where skipping the packet would have returned that
    frame, as the same source without the bad packet does.  It is the same
    when the bad packet comes later in the call, after a packet the decoder
    took and a packet of another track. *)
Lemma C3_bad_packet_is_not_skipped :
  (let o := oshu_next_frame scripted 10 opened one_bad_packet in
   option_map fst (result_of o) = Some (-1) /\
   trace_of o = [AvError AVERROR_INVALIDDATA; Log Warn "abrupt end of stream"] /\
   option_map reads (state_of o) = Some [(0, packet_of 0)] /\
   option_map recvs (state_of o) = Some [(0, frame_at 7)] /\
   option_map (fun r => (fst r, frame (snd r)))
     (result_of (oshu_next_frame scripted 10 opened good_packet)) =
     Some (0, Some (frame_at 7))) /\
  (let o := oshu_next_frame scripted 10 opened bad_packet_later in
   option_map fst (result_of o) = Some (-1) /\
   trace_of o = [AvError AVERROR_INVALIDDATA; Log Warn "abrupt end of stream"] /\
   option_map reads (state_of o) = Some [(0, packet_of 0)] /\
   option_map recvs (state_of o) = Some [(0, frame_at 7)]).
Proof. vm_compute. repeat split. Qed.

(** C4.  For every open stream, once [oshu_next_frame] has returned
    [AVERROR_EOF], every later call returns [AVERROR_EOF] again, whatever
    their number.  The stream keeps no flag of its own: the decoder is the
    one that stays at its end, which is the contract of libavcodec. *)
Theorem C4_end_of_stream_is_terminal
    (L : libav) (Hsticky : eof_is_sticky L)
    (fuel : nat) (st : oshu_stream) (s : lib_state L)
    (st1 : oshu_stream) (s1 : lib_state L) (tr : list event) (fuel' n : nat) :
  oshu_next_frame L fuel st s = Ret (AVERROR_EOF, st1) s1 tr ->
  exists stn sn trn,
    repeat_next_frame L (S fuel') n st1 s1 = Ret (repeat AVERROR_EOF n, stn) sn trn.
Proof.
  intros H.
  pose proof codes_distinct as (Hne0 & Hne1 & _).
  apply oshu_next_frame_inv in H as [_ [[E _]|[[_ (s0 & f & E)]|E]]];
    [congruence | | congruence].
  clear st s tr fuel. revert st1 s0 f s1 E.
  induction n as [|n IH]; intros st s0 f s1 E; cbn [repeat_next_frame repeat].
  - eexists _, _, _. reflexivity.
  - pose proof (Hsticky _ _ _ E) as Hs.
    destruct (avcodec_receive_frame L s1) as [[rc f'] s2] eqn:E'.
    simpl in Hs. subst rc.
    destruct (IH (set_frame st (store (frame st) f')) _ _ _ E') as (stn & sn & trn & R).
    unfold bind at 1.
    rewrite (oshu_next_frame_at_eof L fuel' st s1 f' s2 E').
    unfold bind at 1. rewrite R. simpl. eexists _, _, _. reflexivity.
Qed.

Lemma scripted_eof_is_sticky : eof_is_sticky scripted.
Proof.
  intros s f s' H. simpl in *. unfold script_recv in *.
  destruct (pop (AVERROR_EOF, blank_frame) (recvs s)) as [[rc g] r] eqn:P.
  cbn [fst] in H. destruct (rc =? AVERROR_EOF) eqn:B; inversion H; subst.
  - rewrite P. reflexivity.
  - discriminate B.
Qed.

Lemma C4_end_of_stream_is_terminal_witness :
  exists stn sn trn,
    repeat_next_frame scripted 1 3 (set_frame opened (Some blank_frame))
                      (with_recvs quiet [(AVERROR_EOF, blank_frame)]) =
    Ret (repeat AVERROR_EOF 3, stn) sn trn.
Proof.
  apply (C4_end_of_stream_is_terminal scripted scripted_eof_is_sticky
           2 (set_frame opened (Some (frame_at 7)))
           (with_recvs quiet [(AVERROR_EOF, blank_frame)])
           (set_frame opened (Some blank_frame))
           (with_recvs quiet [(AVERROR_EOF, blank_frame)])
           [Log Debug "reached the last frame"] 0 3).
  reflexivity.
Defined.

Section OpenFacts.
Context (L : libav).

(** Closing a stream always returns; it releases what is not null, in the
    order frame, decoder, demuxer, and leaves the three pointers null. *)
Lemma oshu_close_stream_spec (st : oshu_stream) (s : lib_state L) :
  exists st' s',
    oshu_close_stream L st s = Ret st' s' (stream_releases st) /\
    frame st' = None /\ decoder st' = None /\ demuxer st' = None.
Proof.
  unfold oshu_close_stream, stream_releases.
  destruct st as [dm cd sm dc fr pk tb].
  destruct fr, dc, dm; cbn; eexists _, _; repeat split.
Qed.

Lemma open_decoder_frame (st : oshu_stream) (s : lib_state L) rc st' s' tr :
  open_decoder L st s = Ret (rc, st') s' tr ->
  (rc <? 0) = false ->
  is_some (frame st') = true.
Proof.
  unfold open_decoder, open_decoder_fail. intros H Hrc.
  crunch_in H; inversion H; subst; try discriminate Hrc;
    first [reflexivity | cbn in *; discriminate].
Qed.

(** An open of the stream returns 0 with a decoded frame in the stream, or
    -1 with the stream closed. *)
Lemma oshu_open_stream_inv fuel url (st : oshu_stream) (s : lib_state L) rc st' s' tr :
  oshu_open_stream L fuel url st s = Ret (rc, st') s' tr ->
  (rc = 0 /\
   exists s0 f, avcodec_receive_frame L s0 = ((0, f), s') /\ frame st' = Some f) \/
  (rc = -1 /\ frame st' = None /\ decoder st' = None /\ demuxer st' = None).
Proof.
  unfold oshu_open_stream, oshu_open_stream_fail. intros H. crunch_in H.
  all: inversion H; subst; clear H.
  all: try (right; split; [reflexivity|];
            match goal with
            | E : oshu_close_stream L ?x ?y = Ret _ _ _ |- _ =>
                destruct (oshu_close_stream_spec x y) as (? & ? & E' & ? & ? & ?);
                rewrite E' in E; inversion E; subst; auto
            end).
  left. split; [reflexivity|].
  apply open_decoder_frame in Heqo0; [|assumption].
  apply oshu_next_frame_inv in Heqo1 as [_ [[_ (sx & f & E & F)]|[[-> _]| ->]]];
    try discriminate.
  exists sx, f. split; [exact E|]. rewrite F.
  destruct (frame o0); [reflexivity | discriminate].
Qed.

End OpenFacts.

(** C10.  Opening a stream decodes the first frame before it returns.  With
    the demuxer and the decoder open, the outcome is that of the first
    [oshu_next_frame]: when it returns 0 the open succeeds and the stream
    holds the frame the decoder has just handed out; when it returns an
    error or the end of the stream, the open returns -1 after closing the
    stream, which releases the frame, the decoder and the demuxer and leaves
    their pointers null.  Whatever the step that fails, an open that returns
    does so with 0 and a decoded frame or with -1 and the stream closed. *)
Theorem C10_open_decodes_the_first_frame
    (L : libav) (fuel : nat) (url : string) (st : oshu_stream) (s : lib_state L)
    (st1 : oshu_stream) (s1 : lib_state L) (tr1 : list event)
    (st2 : oshu_stream) (s2 : lib_state L) (tr2 : list event)
    (rc : Z) (st3 : oshu_stream) (s3 : lib_state L) (tr3 : list event) :
  open_demuxer L url st s = Ret (0, st1) s1 tr1 ->
  open_decoder L st1 s1 = Ret (0, st2) s2 tr2 ->
  oshu_next_frame L fuel st2 s2 = Ret (rc, st3) s3 tr3 ->
  ((rc = 0 /\
    oshu_open_stream L fuel url st s = Ret (0, st3) s3 (tr1 ++ tr2 ++ tr3) /\
    exists s0 f, avcodec_receive_frame L s0 = ((0, f), s3) /\ frame st3 = Some f)
   \/
   (rc < 0 /\
    exists st4 s4,
      oshu_open_stream L fuel url st s =
        Ret (-1, st4) s4 (tr1 ++ tr2 ++ tr3 ++ stream_releases st3) /\
      In (Release Frame) (stream_releases st3) /\
      frame st4 = None /\ decoder st4 = None /\ demuxer st4 = None)) /\
  (forall fuel0 url0 st0 s0 rc0 st' s' tr,
     oshu_open_stream L fuel0 url0 st0 s0 = Ret (rc0, st') s' tr ->
     (rc0 = 0 /\
      exists sx f, avcodec_receive_frame L sx = ((0, f), s') /\ frame st' = Some f) \/
     (rc0 = -1 /\ frame st' = None /\ decoder st' = None /\ demuxer st' = None)).
Proof.
  intros H1 H2 H3.
  split; [|intros fuel0 url0 st0 s0 rc0 st' s' tr; apply oshu_open_stream_inv].
  pose proof codes_distinct as (_ & _ & _ & Heof & _).
  pose proof (open_decoder_frame L _ _ _ _ _ _ H2 eq_refl) as Hfr.
  pose proof (oshu_next_frame_inv L _ _ _ _ _ _ _ H3) as [Hsame Hrc].
  assert (Hfr3 : is_some (frame st3) = true).
  { destruct Hsame as (_ & _ & _ & _ & _ & E). congruence. }
  unfold oshu_open_stream.
  rewrite (bind_Ret _ _ _ _ _ _ H1). change (0 <? 0) with false. cbv iota.
  rewrite (bind_Ret _ _ _ _ _ _ H2). change (0 <? 0) with false. cbv iota.
  rewrite (bind_Ret _ _ _ _ _ _ H3).
  assert (Hfail : rc < 0 ->
    exists st4 s4,
      prepend tr1 (prepend tr2 (prepend tr3 (oshu_open_stream_fail L st3 s3))) =
        Ret (-1, st4) s4 (tr1 ++ tr2 ++ tr3 ++ stream_releases st3) /\
      In (Release Frame) (stream_releases st3) /\
      frame st4 = None /\ decoder st4 = None /\ demuxer st4 = None).
  { intros _. destruct (oshu_close_stream_spec L st3 s3) as (st4 & s4 & E & ? & ? & ?).
    exists st4, s4. unfold oshu_open_stream_fail.
    rewrite (bind_Ret _ _ _ _ _ _ E). simpl. rewrite app_nil_r.
    repeat split; auto.
    unfold stream_releases. destruct (frame st3); [left; reflexivity | discriminate]. }
  destruct Hrc as [[-> (s0 & f & E & F)]|[[-> _]| ->]].
  - left. split; [reflexivity|]. simpl. rewrite app_nil_r. split; [reflexivity|].
    exists s0, f. split; [exact E|]. rewrite F.
    destruct (frame st2); [reflexivity | discriminate].
  - right. split; [exact Heof|].
    replace (AVERROR_EOF <? 0) with true by (symmetry; apply Z.ltb_lt; exact Heof).
    apply Hfail; exact Heof.
  - right. split; [lia|]. change (-1 <? 0) with true. cbv iota. apply Hfail; lia.
Qed.

Lemma C10_open_decodes_the_first_frame_witness :
  exists st4 s4,
    oshu_open_stream scripted 5 "song.mp3" zero_stream quiet =
      Ret (-1, st4) s4
          ([Acquire Demuxer] ++ [Acquire Decoder; Acquire Frame] ++
           [Log Debug "reached the last frame"] ++
           stream_releases (set_frame opened (Some blank_frame))) /\
    In (Release Frame) (stream_releases (set_frame opened (Some blank_frame))) /\
    frame st4 = None /\ decoder st4 = None /\ demuxer st4 = None.
Proof.
  destruct (C10_open_decodes_the_first_frame scripted 5 "song.mp3" zero_stream quiet
              demuxed quiet [Acquire Demuxer]
              opened quiet [Acquire Decoder; Acquire Frame]
              AVERROR_EOF (set_frame opened (Some blank_frame)) quiet
              [Log Debug "reached the last frame"]
              eq_refl eq_refl eq_refl) as [[[E _]|[_ H]] _].
  - discriminate E.
  - exact H.
Defined.

(** ** The playback engine *)

(** C1 is not what the callback does.  On a finished context the loop is
    skipped and the last statement runs, [memset(buffer, len, silence)]: the
    value and the count are swapped, so with the silence value 0 of the float
    format the device is opened with, no byte is written.  A buffer of four
    bytes is returned as it came, not filled with silence. *)
Theorem C1_finished_callback_leaves_the_buffer
    (L : libav) (fuel : nat) (s : lib_state L) :
  let a := set_finished zero_audio 1 in
  audio_callback L fuel a [1; 2; 3; 4] 4 s = Ret (a, [1; 2; 3; 4]) s [] /\
  [1; 2; 3; 4] <> repeat (silence (device_spec a)) 4.
Proof.
  split.
  - destruct fuel; reflexivity.
  - discriminate.
Qed.

(** C8.  Closing a context always returns with the handle null.  It closes
    the device (when there is one), then the stream, then frees the context.
    A second close, on the handle the first one left, changes nothing and
    releases nothing, so two closes in a row are one close. *)
Theorem C8_close_twice_is_close_once
    (L : libav) (audio : option oshu_audio) (s : lib_state L) :
  exists s1,
    oshu_audio_close L audio s =
      Ret None s1 (match audio with Some a => close_releases a | None => [] end) /\
    oshu_audio_close L None s1 = Ret None s1 [] /\
    (audio' <- oshu_audio_close L audio ;; oshu_audio_close L audio') s =
      oshu_audio_close L audio s /\
    (forall a, audio = Some a -> device_id a <> 0 ->
       close_releases a = Release Device :: stream_releases (source a) ++ [Release Context]).
Proof.
  assert (Hdev : forall a, device_id a <> 0 ->
            close_releases a =
              Release Device :: stream_releases (source a) ++ [Release Context]).
  { intros a Ha. unfold close_releases.
    apply Z.eqb_neq in Ha. rewrite Ha. reflexivity. }
  destruct audio as [a|].
  - destruct (oshu_close_stream_spec L (source a)
                (if negb (device_id a =? 0) then release L Device s else s))
      as (st' & s' & E & _).
    exists (release L Context s').
    assert (R : oshu_audio_close L (Some a) s =
                Ret None (release L Context s') (close_releases a)).
    { unfold oshu_audio_close, close_releases, free_and_null.
      destruct (device_id a =? 0); cbn [negb] in *.
      - unfold bind at 1. unfold ret at 1. cbn [prepend].
        rewrite (bind_Ret _ _ _ _ _ _ E). cbn. reflexivity.
      - unfold bind at 1. unfold bind at 1. unfold exec at 1. cbn [prepend].
        unfold emit at 1. cbn [prepend].
        rewrite (bind_Ret _ _ _ _ _ _ E). cbn. reflexivity. }
    split; [exact R|]. split; [reflexivity|]. split.
    + unfold bind at 1. rewrite R. cbn. rewrite app_nil_r. reflexivity.
    + intros b Hb. inversion Hb; subst. apply Hdev.
  - exists s. repeat split. intros a Ha. discriminate Ha.
Qed.

Section PipelineFacts.
Context (L : libav).

(** Building the graph touches the pipeline only.  When it succeeds, the
    pipeline is the graph of the source, link by link and filter by
    filter. *)
Lemma create_graph_inv (a : oshu_audio) (s : lib_state L) rc a' s' tr :
  create_graph L a s = Ret (rc, a') s' tr ->
  (rc = 0 \/ rc = -1) /\
  exists p',
    a' = set_pipeline a p' /\
    (rc = 0 -> as_built a p').
Proof.
  unfold create_graph, create_graph_fail, alloc_filter, alloc, fcall. intros H.
  crunch_in H.
  all: inversion H; subst; clear H.
  all: split; [auto|]; eexists; split; [reflexivity|]; intros E; try discriminate E.
  repeat match goal with b : bool |- _ => destruct b end.
  all: repeat match goal with
              | H : is_some _ = true |- _ => cbn in H; first [discriminate H | clear H]
              end.
  all: eexists _, _, _; split; [eassumption|]; split; [eassumption|].
  all: split;
       [|split; [reflexivity|]; split; [reflexivity|]; split; [reflexivity|];
         split; [reflexivity|]; split; reflexivity].
  destruct (block_reused L _); [left|right]; reflexivity.
Qed.

(** Opening the device asks for the rate and the channels of the decoder,
    in float, and stores what SDL answers. *)
Lemma open_device_inv (a : oshu_audio) (s : lib_state L) rc a' s' tr :
  open_device L a s = Ret (rc, a') s' tr ->
  exists d id spec tr',
    decoder (source a) = Some d /\
    a' = set_device a id spec /\
    tr = RequestDevice (want_of d) :: tr' /\
    (forall w, ~ In (RequestDevice w) tr').
Proof.
  unfold open_device. intros H. crunch_in H; inversion H; subst; clear H.
  all: eexists _, _, _, _; split; [reflexivity|]; split; [reflexivity|];
       split; [reflexivity|].
  all: intros w Hin; cbn in Hin; intuition discriminate.
Qed.

End PipelineFacts.

(** ** The clock *)

Lemma handed_timestamps_app (tr1 tr2 : list event) :
  handed_timestamps (tr1 ++ tr2) = handed_timestamps tr1 ++ handed_timestamps tr2.
Proof. unfold handed_timestamps. apply flat_map_app. Qed.

Lemma stamp_app tb cur l1 l2 :
  stamp tb cur (l1 ++ l2) = stamp tb (stamp tb cur l1) l2.
Proof. unfold stamp. apply fold_left_app. Qed.

Lemma stamp_snoc tb cur l x :
  stamp tb cur (l ++ [x]) =
    if 0 <? x then (tb * inject_Z x)%Q else stamp tb cur l.
Proof. rewrite stamp_app. reflexivity. Qed.

(** Frames whose timestamp is not strictly positive leave the clock alone. *)
Lemma stamp_nonpos tb cur l :
  Forall (fun ts => ts <= 0) l -> stamp tb cur l = cur.
Proof.
  induction l as [|x l IH] using rev_ind; intros H; [reflexivity|].
  apply Forall_app in H as [Hl Hx]. inversion Hx; subst.
  rewrite stamp_snoc.
  replace (0 <? x) with false by (symmetry; apply Z.ltb_ge; assumption).
  apply IH; assumption.
Qed.

Section ClockFacts.
Context (L : libav).

(** The decoder hands nothing to the graph. *)
Lemma next_page_end_quiet rc st s c st' s' tr :
  next_page_end L rc st s = Ret (c, st') s' tr -> handed_timestamps tr = [].
Proof.
  unfold next_page_end. intros H. crunch_in H; inversion H; reflexivity.
Qed.

Lemma next_page_quiet fuel : forall st s c st' s' tr,
  next_page L fuel st s = Ret (c, st') s' tr -> handed_timestamps tr = [].
Proof.
  induction fuel as [|fuel IH]; intros st s c st' s' tr H; simpl in H.
  - discriminate.
  - crunch_in H; inversion H; subst; clear H;
      repeat match goal with
             | E : next_page_end _ _ _ _ = _ |- _ => apply next_page_end_quiet in E
             | E : next_page _ _ _ _ = _ |- _ => apply IH in E
             end;
      unfold handed_timestamps in *; simpl; rewrite ?flat_map_app;
      repeat match goal with E : flat_map _ _ = [] |- _ => rewrite E; clear E end;
      reflexivity.
Qed.

Lemma oshu_next_frame_quiet fuel : forall st s c st' s' tr,
  oshu_next_frame L fuel st s = Ret (c, st') s' tr -> handed_timestamps tr = [].
Proof.
  induction fuel as [|fuel IH]; intros st s c st' s' tr H; simpl in H.
  - discriminate.
  - crunch_in H; inversion H; subst; clear H;
      repeat match goal with
             | E : next_page _ _ _ _ = _ |- _ => apply next_page_quiet in E
             | E : oshu_next_frame _ _ _ _ = _ |- _ => apply IH in E
             end;
      unfold handed_timestamps in *; simpl; rewrite ?flat_map_app;
      repeat match goal with E : flat_map _ _ = [] |- _ => rewrite E; clear E end;
      reflexivity.
Qed.

Lemma clock_step_here a a' :
  time_base (source a') = time_base (source a) ->
  current_timestamp a' = current_timestamp a ->
  forall tr, handed_timestamps tr = [] -> clock_step a a' tr.
Proof. intros E1 E2 tr E. unfold clock_step. rewrite E. auto. Qed.

Lemma clock_step_trans a1 a2 a3 tr1 tr2 :
  clock_step a1 a2 tr1 -> clock_step a2 a3 tr2 -> clock_step a1 a3 (tr1 ++ tr2).
Proof.
  unfold clock_step. intros [T1 C1] [T2 C2].
  rewrite handed_timestamps_app, stamp_app. split; congruence.
Qed.

Lemma next_frame_spec fuel a s rc a' s' tr :
  next_frame L fuel a s = Ret (rc, a') s' tr -> clock_step a a' tr.
Proof.
  unfold next_frame, buffersrc_write_frame. intros H. crunch_in H.
  all: inversion H; subst; clear H.
  all: pose proof (oshu_next_frame_quiet _ _ _ _ _ _ _ Heqo) as Hq.
  all: apply oshu_next_frame_inv in Heqo as [(_ & _ & _ & _ & Htb & _) _].
  all: unfold clock_step; cbn [source set_source finished current_timestamp
                               set_current_timestamp time_base pipeline] in *.
  all: rewrite !handed_timestamps_app, Hq; cbn [app].
  all: unfold handed_timestamps; cbn [flat_map app].
  all: repeat split; try assumption.
  all: unfold stamp; cbn [fold_left]; rewrite Heqb1, ?Htb; reflexivity.
Qed.

Lemma feed_spec fuel a s a' s' tr :
  feed L fuel a s = Ret a' s' tr -> clock_step a a' tr.
Proof.
  unfold feed, buffersrc_write_frame. intros H. crunch_in H.
  all: inversion H; subst; clear H.
  all: repeat match goal with
              | E : next_frame _ _ _ _ = _ |- _ => apply next_frame_spec in E
              end.
  all: try (rewrite app_nil_r; eapply clock_step_trans; [eassumption|]).
  all: apply clock_step_here; reflexivity.
Qed.

(** On a finished context the callback skips the loop: it calls no library,
    leaves the context as it is and runs its last statement. *)
Lemma audio_callback_finished fuel a buffer len (s : lib_state L) :
  finished a <> 0 ->
  audio_callback L fuel a buffer len s = Ret (a, audio_callback_end a buffer len) s [].
Proof.
  intros H. apply Z.eqb_neq in H.
  destruct fuel; simpl; rewrite H; reflexivity.
Qed.

Lemma audio_callback_spec fuel : forall a buffer len (s : lib_state L) a' buffer' s' tr,
  audio_callback L fuel a buffer len s = Ret (a', buffer') s' tr ->
  clock_step a a' tr.
Proof.
  induction fuel as [|fuel IH]; intros a buffer len s a' buffer' s' tr H; simpl in H.
  - crunch_in H; inversion H; subst. apply clock_step_here; reflexivity.
  - crunch_in H.
    all: inversion H; subst; clear H.
    all: repeat match goal with
                | E : feed _ _ _ _ = _ |- _ => apply feed_spec in E
                | E : audio_callback _ _ _ _ _ _ = _ |- _ => apply IH in E
                end.
    all: try (apply clock_step_here; reflexivity).
    eapply clock_step_trans; [|eassumption].
    match goal with E : clock_step _ _ _ |- _ => exact E end.
Qed.

(** Between two callbacks the context is left alone, so the steps add up
    over a run of callbacks. *)
Lemma run_callbacks_spec fuel : forall reqs a (s : lib_state L) a' snaps s' tr,
  run_callbacks L fuel reqs a s = Ret (a', snaps) s' tr ->
  clock_step a a' tr /\ List.length snaps = List.length reqs.
Proof.
  induction reqs as [|[buffer len] reqs IH]; intros a s a' snaps s' tr H; simpl in H.
  - inversion H; subst. split; [apply clock_step_here|]; reflexivity.
  - crunch_in H. inversion H; subst; clear H.
    apply audio_callback_spec in Heqo. apply IH in Heqo0 as [Hc Hl].
    rewrite !app_nil_r. split.
    + eapply clock_step_trans; eassumption.
    + simpl. congruence.
Qed.

End ClockFacts.

(** ** Order of the timestamps *)

Lemma StronglySorted_app_r {A} (R : A -> A -> Prop) (l1 l2 : list A) :
  StronglySorted R (l1 ++ l2) -> StronglySorted R l2.
Proof.
  induction l1 as [|x l1 IH]; simpl; intros H; [assumption|].
  apply StronglySorted_inv in H as [H _]. auto.
Qed.

Lemma StronglySorted_app_between {A} (R : A -> A -> Prop) (l1 l2 : list A) x :
  StronglySorted R (l1 ++ x :: l2) -> Forall (R x) l2.
Proof.
  intros H. apply StronglySorted_app_r in H.
  apply StronglySorted_inv in H as [_ F]. exact F.
Qed.

Lemma Qmult_le_nonneg_l (tb : Q) (x y : Z) :
  (0 <= tb)%Q -> x <= y -> (tb * inject_Z x <= tb * inject_Z y)%Q.
Proof.
  intros Htb Hxy. rewrite (Qmult_comm tb (inject_Z x)), (Qmult_comm tb (inject_Z y)).
  apply Qmult_le_compat_r; [|exact Htb]. rewrite <- Zle_Qle. exact Hxy.
Qed.

Lemma filter_snoc {A} (p : A -> bool) (l : list A) (x : A) :
  List.filter p (l ++ [x]) = if p x then List.filter p l ++ [x] else List.filter p l.
Proof.
  rewrite filter_app. simpl. destruct (p x); [reflexivity | apply app_nil_r].
Qed.

(** When the timestamps written to the clock are in order and none is
    before the clock, the clock does not go back. *)
Lemma stamp_mono (tb cur : Q) (l : list Z) :
  Forall (fun ts => (cur <= tb * inject_Z ts)%Q) (List.filter (Z.ltb 0) l) ->
  (cur <= stamp tb cur l)%Q.
Proof.
  induction l as [|x l IH] using rev_ind; intros F.
  - apply Qle_refl.
  - rewrite stamp_snoc. rewrite filter_snoc in F. destruct (0 <? x).
    + apply Forall_app in F as [_ F]. inversion F; subst. assumption.
    + apply IH. exact F.
Qed.

(** And the timestamps still to come are not before the clock either. *)
Lemma stamp_below (tb cur : Q) (l1 l2 : list Z) :
  (0 <= tb)%Q ->
  StronglySorted Z.le (List.filter (Z.ltb 0) (l1 ++ l2)) ->
  Forall (fun ts => (cur <= tb * inject_Z ts)%Q) (List.filter (Z.ltb 0) (l1 ++ l2)) ->
  Forall (fun ts => (stamp tb cur l1 <= tb * inject_Z ts)%Q) (List.filter (Z.ltb 0) l2).
Proof.
  intros Htb. induction l1 as [|x l1 IH] using rev_ind; intros S F.
  - exact F.
  - rewrite stamp_snoc. rewrite <- app_assoc in S, F.
    rewrite filter_app in S, F. simpl in S, F. destruct (0 <? x) eqn:Hx.
    + apply StronglySorted_app_between in S.
      eapply Forall_impl; [|exact S]. intros ts Hts.
      apply Qmult_le_nonneg_l; assumption.
    + rewrite <- filter_app in S, F. apply IH; assumption.
Qed.

(** C5, as amended.  Over any run of callbacks, the clock is what the
    frames handed to the graph make it: [time_base] times the timestamp of
    the last frame handed over with a strictly positive timestamp, or what it
    was before when there is none.  Once [finished] is set it does not change
    any more.  It does not go back as long as the timestamps written to it
    come in order, none of them before the clock the run started with, and
    the time base is not negative; the code itself compares no timestamps. *)
Theorem C5_clock_follows_the_frames
    (L : libav) (fuel : nat) (reqs : list (list Z * Z)) (a : oshu_audio)
    (s : lib_state L) (a' : oshu_audio) (snaps : list (Q * Z))
    (s' : lib_state L) (tr : list event) :
  run_callbacks L fuel reqs a s = Ret (a', snaps) s' tr ->
  current_timestamp a' =
    stamp (time_base (source a)) (current_timestamp a) (handed_timestamps tr) /\
  chain (fun x y => snd x <> 0 -> y = x) (snapshot a) snaps /\
  ((0 <= time_base (source a))%Q ->
   StronglySorted Z.le (clock_writes tr) ->
   Forall (fun ts => (current_timestamp a <= time_base (source a) * inject_Z ts)%Q)
          (clock_writes tr) ->
   chain (fun x y => (fst x <= fst y)%Q) (snapshot a) snaps).
Proof.
  intros H. split; [apply (run_callbacks_spec L _ _ _ _ _ _ _ _ H)|].
  revert a s a' snaps s' tr H.
  induction reqs as [|[buffer len] reqs IH]; intros a s a' snaps s' tr H;
    cbn [run_callbacks] in H.
  - inversion H; subst. simpl. auto.
  - crunch_in H. inversion H; subst; clear H.
    rename Heqo into Hcb, Heqo0 into Hrun.
    destruct (IH _ _ _ _ _ _ Hrun) as [Hfin Hmono]. split.
    + split; [|exact Hfin]. intros Hf. cbn [snd snapshot] in Hf.
      rewrite (audio_callback_finished L fuel a buffer len s Hf) in Hcb.
      inversion Hcb; subst. reflexivity.
    + intros Htb Hs Hf.
      apply audio_callback_spec in Hcb as [Etb Ecur].
      unfold clock_writes in Hs, Hf.
      rewrite !app_nil_r, handed_timestamps_app in Hs, Hf.
      split.
      * cbn [fst snapshot]. rewrite Ecur. apply stamp_mono.
        rewrite filter_app in Hf. apply Forall_app in Hf as [Hf _]. exact Hf.
      * apply Hmono.
        -- rewrite Etb. exact Htb.
        -- rewrite filter_app in Hs. apply StronglySorted_app_r in Hs. exact Hs.
        -- rewrite Etb, Ecur. apply stamp_below; assumption.
Qed.

Lemma C5_clock_follows_the_frames_witness :
  match forward_run with
  | Ret (_, snaps) _ _ => chain (fun x y => (fst x <= fst y)%Q) (snapshot playing) snaps
  | _ => False
  end.
Proof.
  assert (H : run_callbacks scripted 5 two_requests playing (two_buffers [50; 100])
              = forward_run) by (vm_compute; reflexivity).
  unfold forward_run in *.
  destruct (C5_clock_follows_the_frames scripted 5 two_requests playing _ _ _ _ _ H)
    as (_ & _ & Hmono).
  apply Hmono.
  - discriminate.
  - repeat constructor; discriminate.
  - repeat constructor; discriminate.
Defined.

(** C5, as stated, fails: the decoder hands out a frame stamped 100 and then
    one stamped 50, as a stream with a break in its timestamps does.  The
    clock reads 1/10 after the first callback and 1/20 after the second, and
    the context is not finished. *)
Lemma C5_clock_goes_back :
  run_callbacks scripted 5 two_requests playing (two_buffers [100; 50]) = backward_run /\
  match backward_run with
  | Ret (_, [(t1, f1); (t2, f2)]) _ tr =>
      f1 = 0 /\ f2 = 0 /\ ~ (t1 <= t2)%Q /\ handed_timestamps tr = [100; 50]
  | _ => False
  end.
Proof.
  split; [vm_compute; reflexivity|].
  unfold backward_run. repeat split. intros H. apply H. reflexivity.
Qed.

Section OpenAudioFacts.
Context (L : libav).

(** What a successful open returns: the zeroed context with the stream, the
    device and the pipeline filled in, the device having been asked for once,
    with the request made from the decoder. *)
Lemma oshu_audio_open_inv fuel url (s : lib_state L) a s' tr :
  oshu_audio_open L fuel url s = Ret (0, Some a) s' tr ->
  exists src d id spec p',
    a = set_pipeline (set_device (set_source zero_audio src) id spec) p' /\
    decoder src = Some d /\
    In (RequestDevice (want_of d)) tr /\
    as_built a p'.
Proof.
  unfold oshu_audio_open, oshu_audio_open_fail. intros H. crunch_in H.
  inversion H; subst; clear H.
  apply open_device_inv in Heqo0 as (d & id & spec & tr' & Hd & -> & -> & _).
  apply create_graph_inv in Heqo1 as (Hz & p' & -> & Hp).
  assert (Ez : z1 = 0) by (destruct Hz; [assumption | subst; discriminate]).
  exists o, d, id, spec, p'. repeat split; try assumption.
  - right. apply in_or_app. right. apply in_or_app. left. left. reflexivity.
  - exact (Hp Ez).
Qed.

Lemma run_callbacks_nonpos fuel : forall reqs a (s : lib_state L) a' snaps s' tr,
  run_callbacks L fuel reqs a s = Ret (a', snaps) s' tr ->
  Forall (fun ts => ts <= 0) (handed_timestamps tr) ->
  Forall (fun x => fst x = current_timestamp a) snaps.
Proof.
  induction reqs as [|[buffer len] reqs IH]; intros a s a' snaps s' tr H F;
    cbn [run_callbacks] in H.
  - inversion H; subst. constructor.
  - crunch_in H. inversion H; subst; clear H.
    rewrite !app_nil_r, handed_timestamps_app in F. apply Forall_app in F as [F1 F2].
    apply audio_callback_spec in Heqo as [_ Ecur].
    rewrite (stamp_nonpos _ _ _ F1) in Ecur.
    constructor; [exact Ecur|].
    rewrite <- Ecur. eapply IH; eassumption.
Qed.

End OpenAudioFacts.

(** C9.  A frame whose timestamp is zero or negative leaves the clock as it
    is when it is handed to the graph: over a run of callbacks in which no
    frame with a strictly positive timestamp is handed over, the clock reads
    after every callback what it read before the run, and so does it after a
    single [next_frame].  A context that [oshu_audio_open] has just returned
    reads zero. *)
Theorem C9_clock_waits_for_a_positive_timestamp
    (L : libav) (fuel : nat) (reqs : list (list Z * Z)) (a : oshu_audio)
    (s : lib_state L) (a' : oshu_audio) (snaps : list (Q * Z))
    (s' : lib_state L) (tr : list event) :
  run_callbacks L fuel reqs a s = Ret (a', snaps) s' tr ->
  Forall (fun ts => ts <= 0) (handed_timestamps tr) ->
  Forall (fun x => fst x = current_timestamp a) snaps /\
  current_timestamp a' = current_timestamp a /\
  (forall fuel0 url s0 tr0,
     oshu_audio_open L fuel0 url s0 = Ret (0, Some a) s tr0 ->
     current_timestamp a = 0%Q) /\
  (forall fuel1 a1 s1 rc a2 s2 tr1,
     next_frame L fuel1 a1 s1 = Ret (rc, a2) s2 tr1 ->
     Forall (fun ts => ts <= 0) (handed_timestamps tr1) ->
     current_timestamp a2 = current_timestamp a1).
Proof.
  intros H F. repeat split.
  - eapply run_callbacks_nonpos; eassumption.
  - apply run_callbacks_spec in H as [[_ E] _].
    rewrite E. apply stamp_nonpos. exact F.
  - intros fuel0 url s0 tr0 Ho.
    apply oshu_audio_open_inv in Ho as (src & d & id & spec & p' & -> & _).
    reflexivity.
  - intros fuel1 a1 s1 rc a2 s2 tr1 Hn F1.
    apply next_frame_spec in Hn as [_ E].
    rewrite E. apply stamp_nonpos. exact F1.
Qed.

Lemma C9_clock_waits_for_a_positive_timestamp_witness :
  match waiting_run with
  | Ret (a', snaps) _ tr =>
      handed_timestamps tr = [0; -3] /\
      Forall (fun x => fst x = current_timestamp playing) snaps /\
      current_timestamp a' = current_timestamp playing
  | _ => False
  end.
Proof.
  assert (H : run_callbacks scripted 5 two_requests playing (two_buffers [0; -3])
              = waiting_run) by (vm_compute; reflexivity).
  unfold waiting_run in *.
  split; [reflexivity|].
  match type of H with
  | _ = Ret _ _ ?tr =>
      assert (F : Forall (fun ts => ts <= 0) (handed_timestamps tr))
        by (repeat constructor; discriminate)
  end.
  destruct (C9_clock_waits_for_a_positive_timestamp scripted 5 two_requests playing
              _ _ _ _ _ H F) as (A & B & _).
  split; assumption.
Defined.

(** ** The mixer *)







(** C7 is not what a failed open does.  The stream and the device open, and
    the graph cannot be built.  The open returns -1 with the handle null,
    and it has released the device, the frame, the decoder, the demuxer and
    the context once each; the filter graph it had allocated is not released:
    [oshu_audio_close] has no call that frees it. *)
Theorem C7_failed_open_keeps_the_graph :
  let o := oshu_audio_open scripted 5 "song.mp3" graph_fails in
  result_of o = Some (-1, None) /\
  trace_of o =
    [Acquire Context; Acquire Demuxer; Acquire Decoder; Acquire Frame;
     RequestDevice (want_of mono_s16_44100); Acquire Device;
     Acquire Graph; Acquire Params; Release Params; AvError (-22);
     Release Device; Release Frame; Release Decoder; Release Demuxer;
     Release Context] /\
  count_acquire Graph (trace_of o) = 1%nat /\
  count_release Graph (trace_of o) = 0%nat /\
  (forall r, r <> Graph ->
     count_release r (trace_of o) = count_acquire r (trace_of o)).
Proof.
  cbv zeta. split; [vm_compute; reflexivity|]. split; [vm_compute; reflexivity|].
  split; [vm_compute; reflexivity|]. split; [vm_compute; reflexivity|].
  intros r H. destruct r; try (vm_compute; reflexivity); congruence.
Qed.

(** * Further properties of the stream decoder *)

Lemma held_app (r : resource) (tr1 tr2 : list event) :
  held r (tr1 ++ tr2) = held r tr1 + held r tr2.
Proof.
  induction tr1 as [|e tr1 IH]; simpl; [reflexivity|]. rewrite IH. lia.
Qed.

Lemma logs_only_held (r : resource) (tr : list event) :
  logs_only tr -> held r tr = 0.
Proof.
  induction 1 as [|e tr He _ IH]; simpl; [reflexivity|].
  rewrite IH. destruct e; simpl in *; try contradiction; reflexivity.
Qed.

Lemma logs_only_app (tr1 tr2 : list event) :
  logs_only tr1 -> logs_only tr2 -> logs_only (tr1 ++ tr2).
Proof. unfold logs_only. intros. apply Forall_app. auto. Qed.

Ltac logs_only_tac :=
  unfold logs_only in *;
  repeat first
    [ assumption
    | apply Forall_nil
    | apply Forall_cons; [exact I|]
    | apply Forall_app; split ].

Section StreamLogs.
Context (L : libav).

Lemma next_page_end_logs rc st s c st' s' tr :
  next_page_end L rc st s = Ret (c, st') s' tr -> logs_only tr.
Proof.
  unfold next_page_end. intros H. crunch_in H; inversion H; subst; logs_only_tac.
Qed.

Lemma next_page_logs fuel : forall st s c st' s' tr,
  next_page L fuel st s = Ret (c, st') s' tr -> logs_only tr.
Proof.
  induction fuel as [|fuel IH]; intros st s c st' s' tr H; simpl in H.
  - discriminate.
  - crunch_in H; inversion H; subst; clear H;
      repeat match goal with
             | E : next_page_end _ _ _ _ = _ |- _ => apply next_page_end_logs in E
             | E : next_page _ _ _ _ = _ |- _ => apply IH in E
             end;
      logs_only_tac.
Qed.

Lemma oshu_next_frame_logs fuel : forall st s c st' s' tr,
  oshu_next_frame L fuel st s = Ret (c, st') s' tr -> logs_only tr.
Proof.
  induction fuel as [|fuel IH]; intros st s c st' s' tr H; simpl in H.
  - discriminate.
  - crunch_in H; inversion H; subst; clear H;
      repeat match goal with
             | E : next_page _ _ _ _ = _ |- _ => apply next_page_logs in E
             | E : oshu_next_frame _ _ _ _ = _ |- _ => apply IH in E
             end;
      logs_only_tac.
Qed.

End StreamLogs.

Section StreamResults.
Context (L : libav).

Lemma next_page_end_result rc st s c st' s' tr :
  next_page_end L rc st s = Ret (c, st') s' tr ->
  packet st' = blank_packet /\
  ((c = 0 /\ 0 <= rc /\ tr = []) \/ (c = -1 /\ rc < 0 /\ tr = [AvError rc])).
Proof.
  unfold next_page_end. intros H. crunch_in H; inversion H; subst; clear H.
  - split; [reflexivity|]. right. apply Z.ltb_lt in Heqb. auto.
  - split; [reflexivity|]. left. apply Z.ltb_ge in Heqb. auto.
Qed.

Lemma next_page_result fuel : forall st s c st' s' tr,
  next_page L fuel st s = Ret (c, st') s' tr ->
  packet st' = blank_packet /\
  ((c = 0 /\
    (tr = [] \/ tr = [Log Debug "reached the last page, flushing"])) \/
   (c = -1 /\
    exists rc, rc < 0 /\
      (tr = [AvError rc] \/
       tr = [Log Debug "reached the last page, flushing"; AvError rc]))).
Proof.
  induction fuel as [|fuel IH]; intros st s c st' s' tr H; simpl in H.
  - discriminate.
  - crunch_in H; inversion H; subst; clear H.
    all: try match goal with
             | E : next_page _ _ _ _ = _ |- _ => apply IH in E; exact E
             end.
    all: match goal with
         | E : next_page_end _ _ _ _ = _ |- _ =>
             apply next_page_end_result in E
               as [Hp [(-> & _ & ->)|(-> & Hrc & ->)]]
         end.
    all: (split; [exact Hp|]); first [left; split; [reflexivity|]; auto; fail
                                     | right; split; [reflexivity|]; eauto].
Qed.

End StreamResults.

(** X1.  [next_page] returns 0 or -1 and never the code of the library.  It
    returns with the packet unreferenced and with the handles and the frame
    of the stream as they were.  It logs the flush when the container has
    ended, and the error code when it returns -1, and nothing else. *)
Theorem X1_next_page_result
    (L : libav) (fuel : nat) (st : oshu_stream) (s : lib_state L)
    (c : Z) (st' : oshu_stream) (s' : lib_state L) (tr : list event) :
  next_page L fuel st s = Ret (c, st') s' tr ->
  packet st' = blank_packet /\
  same_handles st st' /\
  frame st' = frame st /\
  ((c = 0 /\
    (tr = [] \/ tr = [Log Debug "reached the last page, flushing"])) \/
   (c = -1 /\
    exists rc, rc < 0 /\
      (tr = [AvError rc] \/
       tr = [Log Debug "reached the last page, flushing"; AvError rc]))).
Proof.
  intros H.
  destruct (next_page_result L _ _ _ _ _ _ _ H) as [Hp Hc].
  destruct (next_page_same L _ _ _ _ _ _ _ H) as [Hs Hf].
  auto.
Qed.

Lemma X1_next_page_result_witness :
  match next_page scripted 3 opened foreign_then_audio with
  | Ret (c, st') _ tr =>
      packet st' = blank_packet /\
      same_handles opened st' /\
      frame st' = frame opened /\
      ((c = 0 /\
        (tr = [] \/ tr = [Log Debug "reached the last page, flushing"])) \/
       (c = -1 /\
        exists rc, rc < 0 /\
          (tr = [AvError rc] \/
           tr = [Log Debug "reached the last page, flushing"; AvError rc])))
  | _ => False
  end.
Proof.
  destruct (next_page scripted 3 opened foreign_then_audio)
    as [[c st'] s' tr| |] eqn:E.
  - exact (X1_next_page_result scripted _ _ _ _ _ _ _ E).
  - vm_compute in E. discriminate E.
  - vm_compute in E. discriminate E.
Defined.

(** X2.  Packets of other tracks are passed over: after any number of them,
    at least one, [next_page] goes on exactly as it would on what follows in
    the container, with the packet unreferenced; the decoder has not been
    called and nothing has been logged meanwhile. *)
Theorem X2_next_page_passes_over_other_tracks
    (L : libav) (trk : AVStream) (n fuel : nat) (st : oshu_stream)
    (s s' : lib_state L) :
  stream st = Some trk ->
  foreign_packets L trk (S n) s s' ->
  next_page L (S n + fuel) st s = next_page L fuel (set_packet st blank_packet) s'.
Proof.
  intros Htrk. revert st s Htrk.
  assert (Hstep : forall m st s rd pkt s1,
            stream st = Some trk ->
            av_read_frame L s = ((rd, pkt), s1) ->
            0 <= rd ->
            stream_index pkt <> st_index trk ->
            next_page L (S m) st s = next_page L m (set_packet st blank_packet) s1).
  { intros m st s rd pkt s1 Htrk Hread Hrd Hidx.
    cbn [next_page]. unfold bind at 1. unfold call at 1. rewrite Hread.
    cbn [prepend].
    replace (rd =? AVERROR_EOF) with false
      by (symmetry; apply Z.eqb_neq; pose proof codes_distinct; lia).
    replace (rd <? 0) with false by (symmetry; apply Z.ltb_ge; exact Hrd).
    cbn [stream set_packet packet]. rewrite Htrk.
    replace (stream_index pkt =? st_index trk) with false
      by (symmetry; apply Z.eqb_neq; exact Hidx).
    apply prepend_nil. }
  induction n as [|n IH]; intros st s Htrk H;
    inversion H as [|m s0 rd pkt s1 s2 Hread Hrd Hidx Hrest]; subst.
  - inversion Hrest; subst.
    apply (Hstep fuel st s rd pkt s' Htrk Hread Hrd Hidx).
  - change (S (S n) + fuel)%nat with (S (S n + fuel)).
    rewrite (Hstep _ st s rd pkt s1 Htrk Hread Hrd Hidx).
    rewrite (IH (set_packet st blank_packet) s1 Htrk Hrest).
    rewrite set_packet_twice. reflexivity.
Qed.

Lemma X2_next_page_passes_over_other_tracks_witness :
  next_page scripted (2 + 1) opened two_foreign_then_audio =
  next_page scripted 1 (set_packet opened blank_packet)
            (with_reads quiet [(0, packet_of 0)]).
Proof.
  apply (X2_next_page_passes_over_other_tracks scripted
           {| st_index := 0; st_time_base := {| num := 1; den := 1000 |};
              st_duration := 3000 |}
           1 1 opened two_foreign_then_audio (with_reads quiet [(0, packet_of 0)])).
  - reflexivity.
  - apply (foreign_next scripted _ 1 two_foreign_then_audio 0 (packet_of 3)
             (with_reads quiet [(0, packet_of 5); (0, packet_of 0)])).
    + reflexivity.
    + discriminate.
    + discriminate.
    + apply (foreign_next scripted _ 0 _ 0 (packet_of 5)
               (with_reads quiet [(0, packet_of 0)])).
      * reflexivity.
      * discriminate.
      * discriminate.
      * apply foreign_none.
Defined.

(** X3.  At the end of the container the decoder is flushed and what it
    still holds comes out: when the decoder asks for input, the demuxer is at
    its end, the decoder takes the null packet and then hands out a frame,
    [oshu_next_frame] returns 0 with that frame in the stream, having logged
    the flush and no error. *)
Theorem X3_flush_returns_the_buffered_frame
    (L : libav) (fuel : nat) (st : oshu_stream) (s s1 s2 s3 s4 : lib_state L)
    (f0 f : AVFrame) (pkt : AVPacket) (rc : Z) (fr : AVFrame) :
  frame st = Some fr ->
  avcodec_receive_frame L s = ((AVERROR_EAGAIN, f0), s1) ->
  av_read_frame L s1 = ((AVERROR_EOF, pkt), s2) ->
  avcodec_send_packet L None s2 = (rc, s3) ->
  0 <= rc ->
  avcodec_receive_frame L s3 = ((0, f), s4) ->
  oshu_next_frame L (S (S fuel)) st s =
    Ret (0, set_frame (set_packet st blank_packet) (Some f)) s4
        [Log Debug "reached the last page, flushing"].
Proof.
  intros Hfr H1 H2 H3 Hrc H4.
  cbn [oshu_next_frame]. unfold bind at 1. unfold call at 1. rewrite H1.
  change (AVERROR_EAGAIN =? 0) with false. cbv iota. rewrite Z.eqb_refl.
  cbn [prepend app].
  unfold bind at 1. cbn [next_page]. unfold bind at 1. unfold call at 1. rewrite H2.
  rewrite Z.eqb_refl. cbn [prepend app].
  unfold oshu_log, emit, bind at 1. cbn [prepend app].
  unfold bind at 1. unfold call at 1. rewrite H3. cbn [prepend app].
  unfold next_page_end.
  replace (rc <? 0) with false by (symmetry; apply Z.ltb_ge; exact Hrc).
  unfold ret at 1. cbn [prepend app].
  change (0 <? 0) with false. cbv iota.
  destruct fuel as [|fuel].
  - cbn [oshu_next_frame]. unfold bind at 1. unfold call at 1. rewrite H4.
    rewrite Z.eqb_refl. unfold ret. cbn [prepend app].
    cbn [frame set_frame set_packet store]. rewrite Hfr. reflexivity.
  - cbn [oshu_next_frame]. unfold bind at 1. unfold call at 1. rewrite H4.
    rewrite Z.eqb_refl. unfold ret. cbn [prepend app].
    cbn [frame set_frame set_packet store]. rewrite Hfr. reflexivity.
Qed.

Lemma X3_flush_returns_the_buffered_frame_witness :
  oshu_next_frame scripted 2 opened buffered_frame =
    Ret (0, set_frame (set_packet opened blank_packet) (Some (frame_at 9)))
        quiet
        [Log Debug "reached the last page, flushing"].
Proof.
  apply (X3_flush_returns_the_buffered_frame scripted 0 opened buffered_frame
           (with_recvs quiet [(0, frame_at 9)])
           (with_recvs quiet [(0, frame_at 9)])
           (with_recvs quiet [(0, frame_at 9)])
           quiet blank_frame (frame_at 9) blank_packet 0 blank_frame).
  - reflexivity.
  - reflexivity.
  - reflexivity.
  - reflexivity.
  - discriminate.
  - reflexivity.
Defined.

Lemma error_in_app (tr1 tr2 : list event) :
  (exists c, In (AvError c) (tr1 ++ tr2)) <->
  (exists c, In (AvError c) tr1) \/ (exists c, In (AvError c) tr2).
Proof.
  split.
  - intros (c & H). apply in_app_or in H as [H|H]; eauto.
  - intros [(c & H)|(c & H)]; exists c; apply in_or_app; auto.
Qed.

Lemma error_in_cons (e : event) (tr : list event) :
  (exists c, In (AvError c) (e :: tr)) <->
  (exists c, e = AvError c) \/ (exists c, In (AvError c) tr).
Proof.
  split.
  - intros (c & [H|H]); eauto.
  - intros [(c & H)|(c & H)]; exists c; [left | right]; auto.
Qed.

Lemma no_error_in_nil : ~ exists c : Z, In (AvError c) [].
Proof. intros (c & []). Qed.

Section NextFrameLogs.
Context (L : libav).

Lemma next_page_error_logged fuel st s c st' s' tr :
  next_page L fuel st s = Ret (c, st') s' tr ->
  (c = 0 \/ c = -1) /\ (c = -1 <-> exists rc, In (AvError rc) tr).
Proof.
  intros H. apply next_page_result in H as [_ [(-> & [-> | ->])|(-> & rc & _ & [-> | ->])]].
  - split; [auto|]. split; [discriminate | intros (rc & [])].
  - split; [auto|]. split; [discriminate | intros (rc & [E|[]]); discriminate E].
  - split; [auto|]. split; [intros _; exists rc; left; reflexivity | reflexivity].
  - split; [auto|].
    split; [intros _; exists rc; right; left; reflexivity | reflexivity].
Qed.

(** [oshu_next_frame] returns -1 exactly when an error code of the library
    has been logged. *)
Lemma oshu_next_frame_error_logged fuel : forall st s rc st' s' tr,
  oshu_next_frame L fuel st s = Ret (rc, st') s' tr ->
  rc = -1 <-> exists c, In (AvError c) tr.
Proof.
  pose proof codes_distinct as (_ & Heof & _).
  induction fuel as [|fuel IH]; intros st s rc st' s' tr H; simpl in H.
  - discriminate.
  - crunch_in H; inversion H; subst; clear H;
      repeat match goal with
             | E : next_page _ _ _ _ = _ |- _ =>
                 apply next_page_error_logged in E as [[-> | ->] E]
             | E : oshu_next_frame _ _ _ _ = _ |- _ => apply IH in E
             | E : (_ <? 0) = _ |- _ => try discriminate E; clear E
             end;
      cbn [app];
      rewrite ?error_in_app, ?error_in_cons;
      repeat match goal with
             | E : _ <-> _ |- _ => rewrite <- E; clear E
             end.
    all: try (split; [intros; exfalso; congruence | ]).
    + intros (c & []).
    + split; auto.
    + split; [auto | intros [E|E]; [discriminate E | exact E]].
    + intros [(c & E)|(c & [])]; discriminate E.
    + split; [intros _; left; eauto | reflexivity].
Qed.

End NextFrameLogs.

(** X4.  [oshu_next_frame] returns 0, [AVERROR_EOF] or -1, and nothing else
    of what the library returns.  It returns -1 exactly when an error code has
    been logged.  It leaves the handles of the stream as they were and logs
    only; when it returns 0 the frame of the stream is the one the decoder
    has just handed out. *)
Theorem X4_oshu_next_frame_result
    (L : libav) (fuel : nat) (st : oshu_stream) (s : lib_state L)
    (rc : Z) (st' : oshu_stream) (s' : lib_state L) (tr : list event) :
  oshu_next_frame L fuel st s = Ret (rc, st') s' tr ->
  (rc = 0 \/ rc = AVERROR_EOF \/ rc = -1) /\
  (rc = -1 <-> exists c, In (AvError c) tr) /\
  same_handles st st' /\
  logs_only tr /\
  (rc = 0 ->
   exists s0 f, avcodec_receive_frame L s0 = ((0, f), s') /\
                frame st' = option_map (fun _ => f) (frame st)).
Proof.
  intros H.
  pose proof (oshu_next_frame_inv L _ _ _ _ _ _ _ H) as [Hs Hrc].
  pose proof codes_distinct as (Hne0 & Hne1 & _).
  split; [|split; [|split; [|split]]].
  - destruct Hrc as [[-> _]|[[-> _]| ->]]; auto.
  - eapply oshu_next_frame_error_logged; eassumption.
  - exact Hs.
  - eapply oshu_next_frame_logs; eassumption.
  - intros ->. destruct Hrc as [[_ Hf]|[[E _]|E]]; [exact Hf | congruence | discriminate E].
Qed.

Lemma X4_oshu_next_frame_result_witness :
  match oshu_next_frame scripted 5 opened one_bad_packet with
  | Ret (rc, st') s' tr =>
      (rc = 0 \/ rc = AVERROR_EOF \/ rc = -1) /\
      (rc = -1 <-> exists c, In (AvError c) tr) /\
      same_handles opened st' /\
      logs_only tr /\
      (rc = 0 ->
       exists s0 f, avcodec_receive_frame scripted s0 = ((0, f), s') /\
                    frame st' = option_map (fun _ => f) (frame opened))
  | _ => False
  end.
Proof.
  destruct (oshu_next_frame scripted 5 opened one_bad_packet)
    as [[rc st'] s' tr| |] eqn:E.
  - exact (X4_oshu_next_frame_result scripted _ _ _ _ _ _ _ E).
  - vm_compute in E. discriminate E.
  - vm_compute in E. discriminate E.
Defined.

(** X5.  [open_demuxer] returns 0 or -1 and leaves the decoder, the frame
    and the packet of the stream alone.  On 0 the three calls of the library
    have succeeded in a row, the demuxer is the one [avformat_open_input]
    returned, the codec is the one [av_find_best_stream] returned, the track
    of the stream is the entry of the demuxer's tracks at the index
    [av_find_best_stream] returned, and the time base is that of the track.
    On -1 the track and the time base are as they were and the failure has
    been logged, with a message and then with the code of the library. *)
Theorem X5_open_demuxer_result
    (L : libav) (url : string) (st : oshu_stream) (s : lib_state L)
    (rc : Z) (st' : oshu_stream) (s' : lib_state L) (tr : list event) :
  open_demuxer L url st s = Ret (rc, st') s' tr ->
  decoder st' = decoder st /\ frame st' = frame st /\ packet st' = packet st /\
  ((rc = 0 /\
    tr = [Acquire Demuxer] /\
    exists r0 d s1 r1 s2 i c trk,
      avformat_open_input L url s = ((r0, Some d), s1) /\ 0 <= r0 /\
      avformat_find_stream_info L s1 = (r1, s2) /\ 0 <= r1 /\
      av_find_best_stream L s2 = ((i, Some c), s') /\ 0 <= i /\
      demuxer st' = Some d /\ codec st' = Some c /\
      nth_error (streams d) (Z.to_nat i) = Some trk /\
      stream st' = Some trk /\
      time_base st' = av_q2d (st_time_base trk)) \/
   (rc = -1 /\
    stream st' = stream st /\ time_base st' = time_base st /\
    exists msg code,
      tr = (if is_some (demuxer st') then [Acquire Demuxer] else []) ++
           [Log Error msg; AvError code])).
Proof.
  unfold open_demuxer, open_demuxer_fail. intros H.
  crunch_in H; inversion H; subst; clear H.
  all: split; [reflexivity|]; split; [reflexivity|]; split; [reflexivity|].
  all: try (right; split; [reflexivity|]; split; [reflexivity|];
            split; [reflexivity|]; eexists _, _; reflexivity).
  left. split; [reflexivity|]. split; [reflexivity|].
  apply orb_false_iff in Heqb1 as [Hz Hc]. apply Z.ltb_ge in Hz.
  apply Z.ltb_ge in Heqb, Heqb0.
  destruct o0 as [c|]; [|discriminate Hc].
  cbn in Heqo1. inversion Heqo1; subst.
  exists z, a0, l, z0, l0, z1, c, a1.
  repeat split; first [assumption | reflexivity].
Qed.

Lemma X5_open_demuxer_result_witness :
  match open_demuxer second_track "song.mkv" zero_stream quiet with
  | Ret (rc, st') _ tr =>
      rc = 0 /\ option_map st_index (stream st') = Some 1
  | _ => False
  end.
Proof.
  destruct (open_demuxer second_track "song.mkv" zero_stream quiet)
    as [[rc st'] s' tr| |] eqn:E;
    [|vm_compute in E; discriminate E|vm_compute in E; discriminate E].
  destruct (X5_open_demuxer_result second_track _ _ _ _ _ _ _ E)
    as (_ & _ & _ & [(-> & _ & r0 & d & s1 & r1 & s2 & i & c & trk &
                      Ho & _ & Hi & _ & Hb & _ & _ & _ & Hn & Hs & _)
                    |(-> & _)]).
  - split; [reflexivity|]. rewrite Hs.
    injection Ho as _ <- <-. injection Hi as _ <-. injection Hb as <- _ _.
    injection Hn as <-. reflexivity.
  - exfalso. vm_compute in E. discriminate E.
Defined.

(** X6.  On a stream that has no frame yet, [open_decoder] returns 0 or -1
    and leaves the demuxer, the codec, the track, the time base and the packet
    of the stream alone.  On 0 the frame is not null and nothing has been
    logged.  On -1 there is no frame, the failure has been logged, with a
    message and then with a code, and the decoder that was allocated is still
    in the stream for the caller to release. *)
Theorem X6_open_decoder_result
    (L : libav) (st : oshu_stream) (s : lib_state L)
    (rc : Z) (st' : oshu_stream) (s' : lib_state L) (tr : list event) :
  frame st = None ->
  open_decoder L st s = Ret (rc, st') s' tr ->
  demuxer st' = demuxer st /\ codec st' = codec st /\ stream st' = stream st /\
  time_base st' = time_base st /\ packet st' = packet st /\
  exists logs,
    tr = (if is_some (decoder st') then [Acquire Decoder] else []) ++
         (if is_some (frame st') then [Acquire Frame] else []) ++ logs /\
    ((rc = 0 /\ is_some (frame st') = true /\ logs = []) \/
     (rc = -1 /\ frame st' = None /\
      exists msg code, logs = [Log Error msg; AvError code])).
Proof.
  unfold open_decoder, open_decoder_fail. intros Hfr H.
  crunch_in H; inversion H; subst; clear H.
  all: cbn in *; try discriminate; rewrite ?Hfr.
  all: split; [reflexivity|]; split; [reflexivity|]; split; [reflexivity|].
  all: split; [reflexivity|]; split; [reflexivity|].
  all: eexists; split; [reflexivity|].
  all: first [ left; split; [reflexivity|]; split; reflexivity
             | right; split; [reflexivity|]; split; [reflexivity|];
               eexists _, _; reflexivity ].
Qed.

Lemma X6_open_decoder_result_witness :
  match open_decoder scripted demuxed quiet with
  | Ret (rc, st') _ tr =>
      demuxer st' = demuxer demuxed /\ codec st' = codec demuxed /\
      stream st' = stream demuxed /\
      time_base st' = time_base demuxed /\ packet st' = packet demuxed /\
      exists logs,
        tr = (if is_some (decoder st') then [Acquire Decoder] else []) ++
             (if is_some (frame st') then [Acquire Frame] else []) ++ logs /\
        ((rc = 0 /\ is_some (frame st') = true /\ logs = []) \/
         (rc = -1 /\ frame st' = None /\
          exists msg code, logs = [Log Error msg; AvError code]))
  | _ => False
  end.
Proof.
  destruct (open_decoder scripted demuxed quiet) as [[rc st'] s' tr| |] eqn:E.
  - exact (X6_open_decoder_result scripted demuxed quiet rc st' s' tr eq_refl E).
  - vm_compute in E. discriminate E.
  - vm_compute in E. discriminate E.
Defined.

(** X7.  [oshu_close_stream] always returns.  It releases the frame, the
    decoder and the demuxer, in that order and only those that are not null,
    and resets their pointers; the codec, the track, the time base and the
    packet stay as they were.  Closing the stream again releases nothing and
    changes nothing. *)
Theorem X7_close_stream_twice
    (L : libav) (st : oshu_stream) (s : lib_state L) :
  exists st' s',
    oshu_close_stream L st s = Ret st' s' (stream_releases st) /\
    frame st' = None /\ decoder st' = None /\ demuxer st' = None /\
    codec st' = codec st /\ stream st' = stream st /\
    time_base st' = time_base st /\ packet st' = packet st /\
    oshu_close_stream L st' s' = Ret st' s' [].
Proof.
  unfold oshu_close_stream, stream_releases.
  destruct st as [dm cd sm dc fr pk tb].
  destruct fr, dc, dm; cbn; eexists _, _; repeat split.
Qed.

(** ** What a stream holds *)

Section StreamOwnership.
Context (L : libav).

Lemma open_demuxer_held url st (s : lib_state L) rc st' s' tr :
  demuxer st = None ->
  open_demuxer L url st s = Ret (rc, st') s' tr ->
  decoder st' = decoder st /\ frame st' = frame st /\
  forall r, held r tr = stream_owns st' r - stream_owns st r.
Proof.
  unfold open_demuxer, open_demuxer_fail. intros Hd H.
  crunch_in H; inversion H; subst; clear H.
  all: split; [reflexivity|]; split; [reflexivity|].
  all: intros r; destruct r; cbn; rewrite ?Hd; cbn; lia.
Qed.

Lemma open_decoder_held st (s : lib_state L) rc st' s' tr :
  decoder st = None -> frame st = None ->
  open_decoder L st s = Ret (rc, st') s' tr ->
  demuxer st' = demuxer st /\
  forall r, held r tr = stream_owns st' r - stream_owns st r.
Proof.
  unfold open_decoder, open_decoder_fail. intros Hd Hf H.
  crunch_in H; inversion H; subst; clear H.
  all: cbn in *; try discriminate.
  all: split; [reflexivity|].
  all: intros r; destruct r; cbn; rewrite ?Hd, ?Hf; cbn; lia.
Qed.

Lemma oshu_next_frame_held fuel st (s : lib_state L) rc st' s' tr :
  oshu_next_frame L fuel st s = Ret (rc, st') s' tr ->
  forall r, held r tr = 0 /\ stream_owns st' r = stream_owns st r.
Proof.
  intros H r. split.
  - apply logs_only_held. eapply oshu_next_frame_logs; eassumption.
  - apply oshu_next_frame_inv in H as [(Hdm & _ & _ & Hdc & _ & Hfr) _].
    destruct r; unfold stream_owns, own; rewrite ?Hdm, ?Hdc, ?Hfr; reflexivity.
Qed.

Lemma oshu_close_stream_held st (s : lib_state L) st' s' tr :
  oshu_close_stream L st s = Ret st' s' tr ->
  forall r, held r tr = - stream_owns st r /\ stream_owns st' r = 0.
Proof.
  unfold oshu_close_stream. destruct st as [dm cd sm dc fr pk tb].
  destruct fr, dc, dm; cbn; intros H; inversion H; subst;
    intros r; destruct r; cbn; split; reflexivity.
Qed.

Lemma oshu_open_stream_held fuel url st (s : lib_state L) rc st' s' tr :
  demuxer st = None -> decoder st = None -> frame st = None ->
  oshu_open_stream L fuel url st s = Ret (rc, st') s' tr ->
  (rc = 0 \/ rc = -1) /\
  (forall r, held r tr = stream_owns st' r) /\
  (rc = -1 -> forall r, stream_owns st' r = 0).
Proof.
  intros Hdm Hdc Hfr H.
  unfold oshu_open_stream, oshu_open_stream_fail in H. crunch_in H.
  all: inversion H; subst; clear H.
  all: repeat match goal with
              | E : open_demuxer _ _ _ _ = _ |- _ =>
                  apply (open_demuxer_held _ _ _ _ _ _ _ Hdm) in E as (Edc & Efr & E1)
              end.
  all: repeat match goal with
              | E : open_decoder _ _ _ = _ |- _ =>
                  apply open_decoder_held in E as (Edm & E2); [| congruence | congruence]
              | E : oshu_close_stream _ _ _ = _ |- _ =>
                  pose proof (oshu_close_stream_held _ _ _ _ _ E) as E4; clear E
              end.
  all: try match goal with
           | E : oshu_next_frame _ _ _ _ = Ret (?c, _) _ _ |- _ =>
               pose proof (oshu_next_frame_held _ _ _ _ _ _ _ E) as E3;
               apply oshu_next_frame_inv in E as [_ Hc]
           end.
  all: assert (Hst : forall r, stream_owns st r = 0)
         by (intros r; destruct r; cbn; rewrite ?Hdm, ?Hdc, ?Hfr; reflexivity).
  all: split;
       [ first [ right; reflexivity
               | left; destruct Hc as [[-> _]|[[-> _]| ->]];
                 first [reflexivity | discriminate] ]
       | ].
  all: split;
       [ intros r; rewrite ?held_app; cbn [held];
         repeat match goal with
                | E : forall r, _ |- _ => specialize (E r)
                end;
         repeat match goal with
                | E : _ /\ _ |- _ => destruct E
                end;
         lia
       | intros Hm r; try discriminate Hm;
         repeat match goal with
                | E : forall r, _ |- _ => specialize (E r)
                end;
         repeat match goal with
                | E : _ /\ _ |- _ => destruct E
                end;
         lia ].
Qed.

End StreamOwnership.

(** X8.  [oshu_open_stream] on a stream whose pointers are null returns 0 or
    -1, and what it has acquired and not released is what the stream points
    to: one demuxer, decoder or frame for each pointer that is not null, and
    nothing else.  When it returns -1 it holds nothing: whatever step failed,
    everything it had acquired has been released. *)
Theorem X8_open_stream_holds_what_it_points_to
    (L : libav) (fuel : nat) (url : string) (st : oshu_stream) (s : lib_state L)
    (rc : Z) (st' : oshu_stream) (s' : lib_state L) (tr : list event) :
  demuxer st = None -> decoder st = None -> frame st = None ->
  oshu_open_stream L fuel url st s = Ret (rc, st') s' tr ->
  (rc = 0 \/ rc = -1) /\
  (forall r, held r tr = stream_owns st' r) /\
  (rc = -1 -> forall r, held r tr = 0).
Proof.
  intros Hdm Hdc Hfr H.
  destruct (oshu_open_stream_held L _ _ _ _ _ _ _ _ Hdm Hdc Hfr H) as (Hrc & Hh & Hz).
  split; [exact Hrc|]. split; [exact Hh|].
  intros Hm r. rewrite Hh. apply Hz. exact Hm.
Qed.

Lemma X8_open_stream_holds_what_it_points_to_witness :
  match oshu_open_stream scripted 5 "song.mp3" zero_stream one_bad_packet with
  | Ret (rc, st') _ tr =>
      (rc = 0 \/ rc = -1) /\
      (forall r, held r tr = stream_owns st' r) /\
      (rc = -1 -> forall r, held r tr = 0)
  | _ => False
  end.
Proof.
  destruct (oshu_open_stream scripted 5 "song.mp3" zero_stream one_bad_packet)
    as [[rc st'] s' tr| |] eqn:E.
  - exact (X8_open_stream_holds_what_it_points_to scripted 5 "song.mp3" zero_stream
             one_bad_packet rc st' s' tr eq_refl eq_refl eq_refl E).
  - vm_compute in E. discriminate E.
  - vm_compute in E. discriminate E.
Defined.

(** * Further properties of the playback engine *)

Lemma keeps_refl (a : oshu_audio) : keeps a a.
Proof.
  unfold keeps, same_topology. repeat split; auto using same_handles_refl.
Qed.

Lemma keeps_trans (a1 a2 a3 : oshu_audio) :
  keeps a1 a2 -> keeps a2 a3 -> keeps a1 a3.
Proof.
  unfold keeps, same_topology.
  intros ((?&?&?&?&?&?) & ? & ? & Hs1 & Ho1 & Hf1)
         ((?&?&?&?&?&?) & ? & ? & Hs2 & Ho2 & Hf2).
  split; [repeat split; congruence|].
  split; [congruence|]. split; [congruence|].
  split; [eapply same_handles_trans; eassumption|]. split.
  - destruct Ho1 as [E1|E1], Ho2 as [E2|E2]; rewrite ?E2, ?E1; auto.
  - destruct Hf1 as [E1|E1], Hf2 as [E2|E2]; rewrite ?E2, ?E1; auto.
Qed.

Lemma callback_event_logs (p : oshu_pipeline) (tr : list event) :
  logs_only tr -> Forall (callback_event p) tr.
Proof.
  unfold logs_only. intros H. eapply Forall_impl; [|exact H].
  intros e He. destruct e; simpl in *; tauto.
Qed.

Lemma callback_event_same (p p' : oshu_pipeline) (tr : list event) :
  same_topology p p' -> Forall (callback_event p') tr -> Forall (callback_event p) tr.
Proof.
  intros (_ & Hm & He & _) H. eapply Forall_impl; [|exact H].
  intros e. destruct e; simpl; auto. rewrite Hm, He. auto.
Qed.

Section CallbackFacts.
Context (L : libav).

Lemma next_frame_inv fuel a (s : lib_state L) rc a' s' tr :
  next_frame L fuel a s = Ret (rc, a') s' tr ->
  rc = 0 /\
  pipeline a' = pipeline a /\ device_id a' = device_id a /\
  device_spec a' = device_spec a /\ overlay a' = overlay a /\
  finished a' = finished a /\ same_handles (source a) (source a') /\
  exists logs w,
    tr = logs ++ [WriteFrame (music (pipeline a)) w] /\
    logs_only logs /\
    ((w = None /\ current_timestamp a' = current_timestamp a) \/
     (exists f s0 s1,
        w = Some f /\ frame (source a') = Some f /\
        avcodec_receive_frame L s0 = ((0, f), s1))).
Proof.
  unfold next_frame, buffersrc_write_frame. intros H. crunch_in H.
  all: inversion H; subst; clear H.
  all: pose proof (oshu_next_frame_logs _ _ _ _ _ _ _ _ Heqo) as Hl.
  all: pose proof (oshu_next_frame_error_logged _ _ _ _ _ _ _ _ Heqo) as He.
  all: pose proof (oshu_next_frame_inv _ _ _ _ _ _ _ _ Heqo) as [Hs Hc].
  all: split; [reflexivity|]; split; [reflexivity|]; split; [reflexivity|].
  all: split; [reflexivity|]; split; [reflexivity|]; split; [reflexivity|].
  all: split; [exact Hs|].
  all: cbn [source set_source pipeline set_current_timestamp frame] in *.
  all: exists tr0; eexists; split;
       [rewrite ?app_nil_r; cbn [app]; reflexivity|]; split; [exact Hl|].
  - left. split; reflexivity.
  - right. destruct Hc as [[_ (s1 & f & Hr & Hf)]|[[-> _]| ->]];
      [|discriminate Heqb|discriminate Heqb].
    exists a1, s1, s0. rewrite Heqo0 in Hf.
    destruct (frame (source a)); [|discriminate Hf].
    injection Hf as ->. auto.
  - right. destruct Hc as [[_ (s1 & f & Hr & Hf)]|[[-> _]| ->]];
      [|discriminate Heqb|discriminate Heqb].
    exists a1, s1, s0. rewrite Heqo0 in Hf.
    destruct (frame (source a)); [|discriminate Hf].
    injection Hf as ->. auto.
Qed.

End CallbackFacts.

(** X9. One call of [next_frame] is one call of [oshu_next_frame] on the
    stream of the context, then exactly one write to the music source of the
    graph, which must return 0, and [next_frame] returns 0 whatever the
    decoder said.  What is written is decided by the decoder's code: on a
    negative code the end marker, the clock being left alone; otherwise the
    frame the stream now points to, the one the decoder has just filled, and
    the clock moves to its timestamp when that is strictly positive.  Before
    the write the trace is that of the decoding.  The graph, the device, the
    overlay and the flag are as they were. *)
Theorem X9_next_frame_hands_one_thing_to_the_music
    (L : libav) (fuel : nat) (a : oshu_audio) (s : lib_state L)
    (rc : Z) (a' : oshu_audio) (s' : lib_state L) (tr : list event) :
  next_frame L fuel a s = Ret (rc, a') s' tr ->
  exists rc0 src s0 logs w,
    oshu_next_frame L fuel (source a) s = Ret (rc0, src) s0 logs /\
    av_buffersrc_write_frame L (music (pipeline a)) w s0 = (0, s') /\
    rc = 0 /\
    tr = logs ++ [WriteFrame (music (pipeline a)) w] /\
    source a' = src /\
    pipeline a' = pipeline a /\ device_id a' = device_id a /\
    device_spec a' = device_spec a /\ overlay a' = overlay a /\
    finished a' = finished a /\
    ((rc0 < 0 /\ w = None /\ current_timestamp a' = current_timestamp a) \/
     (0 <= rc0 /\
      exists f,
        frame src = Some f /\ w = Some f /\
        current_timestamp a' =
          if 0 <? best_effort_timestamp f
          then (time_base src * inject_Z (best_effort_timestamp f))%Q
          else current_timestamp a)).
Proof.
  unfold next_frame, buffersrc_write_frame. intros H. crunch_in H.
  all: inversion H; subst; clear H.
  all: repeat match goal with
              | E : (_ <? 0) = true |- _ => apply Z.ltb_lt in E
              | E : (_ <? 0) = false |- _ => apply Z.ltb_ge in E
              | E : (_ =? 0) = true |- _ => apply Z.eqb_eq in E; subst
              end.
  all: eexists _, _, _, _, _; split; [reflexivity|]; split; [eassumption|].
  all: split; [reflexivity|].
  all: split; [rewrite ?app_nil_r; cbn [app]; reflexivity|].
  all: repeat (split; [reflexivity|]).
  all: cbn [source set_source set_current_timestamp current_timestamp frame] in *.
  - left. auto.
  - right. split; [assumption|]. eexists. split; [eassumption|].
    split; [reflexivity|].
    match goal with E : (0 <? _) = true |- _ => rewrite E end. reflexivity.
  - right. split; [assumption|]. eexists. split; [eassumption|].
    split; [reflexivity|].
    match goal with E : (0 <? _) = false |- _ => rewrite E end. reflexivity.
Qed.

Lemma X9_next_frame_hands_one_thing_to_the_music_witness :
  match next_frame scripted 5 playing (with_recvs quiet [(0, frame_at 50)]) with
  | Ret (rc, a') _ tr =>
      rc = 0 /\ tr = [WriteFrame (music (pipeline playing)) (Some (frame_at 50))] /\
      frame (source a') = Some (frame_at 50)
  | _ => False
  end.
Proof.
  destruct (next_frame scripted 5 playing (with_recvs quiet [(0, frame_at 50)]))
    as [[rc a'] s' tr| |] eqn:E;
    [|vm_compute in E; discriminate E|vm_compute in E; discriminate E].
  destruct (X9_next_frame_hands_one_thing_to_the_music _ _ _ _ _ _ _ _ E)
    as (rc0 & src & s0 & logs & w & Hn & _ & Hrc & Htr & Hsrc & _ & _ & _ & _ & _ & Hw).
  vm_compute in Hn. injection Hn as <- <- <- <-.
  split; [exact Hrc|].
  destruct Hw as [(Hneg & _)|(_ & f & Hf & Hwf & _)]; [discriminate Hneg|].
  injection Hf as <-. subst w.
  split; [exact Htr|]. rewrite Hsrc. reflexivity.
Defined.

Section CallbackKeeps.
Context (L : libav).

Lemma next_frame_keeps fuel a (s : lib_state L) rc a' s' tr :
  next_frame L fuel a s = Ret (rc, a') s' tr ->
  keeps a a' /\ Forall (callback_event (pipeline a)) tr.
Proof.
  intros H. apply next_frame_inv in H
    as (_ & Hp & Hd & Hsp & Ho & Hf & Hs & logs & w & -> & Hl & _).
  split.
  - unfold keeps, same_topology. rewrite Hp, Hd, Hsp, Ho, Hf. auto 10.
  - apply Forall_app. split; [apply callback_event_logs; exact Hl|].
    constructor; [|constructor]. simpl. auto.
Qed.

Lemma feed_keeps fuel a (s : lib_state L) a' s' tr :
  feed L fuel a s = Ret a' s' tr ->
  keeps a a' /\ Forall (callback_event (pipeline a)) tr.
Proof.
  unfold feed, buffersrc_write_frame. intros H. crunch_in H.
  all: inversion H; subst; clear H.
  all: repeat match goal with
              | E : next_frame _ _ _ _ = _ |- _ =>
                  apply next_frame_keeps in E as [Hk Hc]
              end.
  all: rewrite ?app_nil_r.
  all: try match goal with
           | Hk : keeps ?a ?o |- keeps ?a (set_overlay ?o None) /\ _ =>
               split; [eapply keeps_trans; [exact Hk|]|]
           | |- keeps ?a (set_overlay ?a None) /\ _ => split
           | |- keeps ?a ?a /\ _ => split; [apply keeps_refl|]
           | Hk : keeps ?a ?o |- keeps ?a ?o /\ _ => split; [exact Hk|]
           end.
  all: try (unfold keeps, same_topology; cbn; auto 10 using same_handles_refl; fail).
  all: try assumption.
  all: try apply Forall_app; try split; try assumption.
  all: try (constructor; [|constructor]; simpl; auto; fail).
  all: try constructor.
  - simpl. destruct Hk as ((_ & _ & -> & _) & _). auto.
  - constructor.
Qed.

Lemma audio_callback_keeps fuel : forall a buffer len (s : lib_state L) a' buffer' s' tr,
  audio_callback L fuel a buffer len s = Ret (a', buffer') s' tr ->
  keeps a a' /\ Forall (callback_event (pipeline a)) tr.
Proof.
  induction fuel as [|fuel IH]; intros a buffer len s a' buffer' s' tr H; simpl in H.
  - crunch_in H; inversion H; subst. split; [apply keeps_refl|constructor].
  - crunch_in H.
    all: inversion H; subst; clear H.
    all: repeat match goal with
                | E : feed _ _ _ _ = _ |- _ => apply feed_keeps in E as [Hk1 Hc1]
                | E : audio_callback _ _ _ _ _ _ = _ |- _ => apply IH in E as [Hk2 Hc2]
                end.
    all: try (split; [apply keeps_refl|constructor]; fail).
    all: try (split; [unfold keeps, same_topology; cbn; auto 10 using same_handles_refl|];
              repeat constructor; fail).
    split.
    + eapply keeps_trans; [|eapply keeps_trans; [exact Hk1|exact Hk2]].
      unfold keeps, same_topology; cbn; auto 10 using same_handles_refl.
    + cbn [app]. apply Forall_app. split; [exact Hc1|].
      eapply callback_event_same; [|exact Hc2].
      destruct Hk1 as (Ht & _). exact Ht.
Qed.

End CallbackKeeps.

(** X10. Over any run of callbacks the context keeps its graph and its six
    filter pointers, its device and the handles of its stream; the overlay
    is only ever dropped and the flag only ever set.  To the outside the
    callbacks log and write to the two sources of the graph: frames and the
    end marker to the music, and nothing but the end marker to the effect
    source, so that no sample of an overlay reaches the graph.  They acquire
    and release nothing. *)
Theorem X10_callbacks_keep_the_graph_and_feed_only_the_music
    (L : libav) (fuel : nat) (reqs : list (list Z * Z)) (a : oshu_audio)
    (s : lib_state L) (a' : oshu_audio) (snaps : list (Q * Z))
    (s' : lib_state L) (tr : list event) :
  run_callbacks L fuel reqs a s = Ret (a', snaps) s' tr ->
  keeps a a' /\
  Forall (callback_event (pipeline a)) tr /\
  (forall r, held r tr = 0).
Proof.
  assert (Hheld : forall p tr0, Forall (callback_event p) tr0 ->
                                forall r, held r tr0 = 0).
  { intros p tr0 F r. induction F as [|e tr0 He _ IH]; [reflexivity|].
    simpl. rewrite IH. destruct e; simpl in *; try reflexivity; contradiction. }
  intros H.
  assert (Hk : keeps a a' /\ Forall (callback_event (pipeline a)) tr).
  { revert a s a' snaps s' tr H.
    induction reqs as [|[buffer len] reqs IH]; intros a s a' snaps s' tr H;
      cbn [run_callbacks] in H.
    - inversion H; subst. split; [apply keeps_refl|constructor].
    - crunch_in H. inversion H; subst; clear H.
      match goal with
      | E : audio_callback _ _ _ _ _ _ = _ |- _ =>
          apply audio_callback_keeps in E as [Hk1 Hc1]
      end.
      match goal with
      | E : run_callbacks _ _ _ _ _ = _ |- _ => apply IH in E as [Hk2 Hc2]
      end.
      rewrite !app_nil_r. split.
      + eapply keeps_trans; eassumption.
      + apply Forall_app. split; [exact Hc1|].
        eapply callback_event_same; [|exact Hc2]. destruct Hk1 as [Ht _]. exact Ht. }
  destruct Hk as [Hk Hc]. split; [exact Hk|]. split; [exact Hc|].
  eapply Hheld; exact Hc.
Qed.

Lemma X10_callbacks_keep_the_graph_and_feed_only_the_music_witness :
  match run_callbacks scripted 5 two_requests playing (two_buffers [50; 100]) with
  | Ret (a', _) _ tr =>
      keeps playing a' /\ Forall (callback_event (pipeline playing)) tr /\
      (forall r, held r tr = 0)
  | _ => False
  end.
Proof.
  destruct (run_callbacks scripted 5 two_requests playing (two_buffers [50; 100]))
    as [[a' snaps] s' tr| |] eqn:E;
    [|vm_compute in E; discriminate E|vm_compute in E; discriminate E].
  exact (X10_callbacks_keep_the_graph_and_feed_only_the_music _ _ _ _ _ _ _ _ _ E).
Defined.

(** X11. Once the flag is set nothing moves any more: any run of callbacks
    on a finished context returns, whatever the bound on the loop, without a
    call to the library and without a log line, leaves the context as it is
    and shows the same clock and flag after each callback. *)
Theorem X11_finished_context_is_at_rest
    (L : libav) (fuel : nat) (reqs : list (list Z * Z)) (a : oshu_audio)
    (s : lib_state L) :
  finished a <> 0 ->
  run_callbacks L fuel reqs a s = Ret (a, map (fun _ => snapshot a) reqs) s [].
Proof.
  intros Hf. induction reqs as [|[buffer len] reqs IH]; cbn [run_callbacks map].
  - reflexivity.
  - unfold bind. rewrite (audio_callback_finished L fuel a buffer len s Hf).
    cbn [prepend]. rewrite IH. reflexivity.
Qed.

Lemma X11_finished_context_is_at_rest_witness :
  finished played <> 0 /\
  run_callbacks scripted 0 two_requests played quiet =
    Ret (played, map (fun _ => snapshot played) two_requests) quiet [].
Proof.
  split; [vm_compute; discriminate|].
  apply X11_finished_context_is_at_rest. vm_compute; discriminate.
Defined.

(** X12. [open_device] asks SDL once, for 32-bit float at the rate of the
    decoder, with its channel count as a byte and 1024 samples per channel
    as a 16-bit number (below 64 channels nothing is cut off), and stores
    the identifier and the format SDL answers, also when it fails.  It
    returns 0 and holds a device exactly when the identifier is not 0;
    otherwise it logs one error and returns -1. *)
Theorem X12_open_device_result
    (L : libav) (a : oshu_audio) (s : lib_state L)
    (rc : Z) (a' : oshu_audio) (s' : lib_state L) (tr : list event) :
  open_device L a s = Ret (rc, a') s' tr ->
  exists d id spec,
    decoder (source a) = Some d /\
    SDL_OpenAudioDevice L (want_of d) s = ((id, spec), s') /\
    a' = set_device a id spec /\
    format (want_of d) = AUDIO_F32 /\ freq (want_of d) = sample_rate d /\
    0 <= spec_channels (want_of d) < 256 /\ 0 <= samples (want_of d) < 65536 /\
    (0 <= channels d < 64 ->
     spec_channels (want_of d) = channels d /\
     samples (want_of d) = 1024 * channels d) /\
    ((rc = 0 /\ id <> 0 /\ tr = [RequestDevice (want_of d); Acquire Device]) \/
     (rc = -1 /\ id = 0 /\
      tr = [RequestDevice (want_of d);
            Log Error "failed to open the audio device: %s"])).
Proof.
  unfold open_device. intros H. crunch_in H; inversion H; subst; clear H.
  all: eexists _, _, _; split; [reflexivity|]; split; [eassumption|];
       split; [reflexivity|]; split; [reflexivity|]; split; [reflexivity|].
  all: split; [unfold want_of; cbn [spec_channels]; apply Z.mod_pos_bound; lia|].
  all: split; [unfold want_of; cbn [samples]; apply Z.mod_pos_bound; lia|].
  all: split;
       [intros Hc; unfold want_of, sample_buffer_size; cbn [spec_channels samples];
        rewrite (Z.mod_small (channels _) 256) by lia;
        rewrite Z.mod_small by lia; split; reflexivity|].
  all: cbn [device_id set_device] in *.
  all: try (rewrite Z.eqb_eq in *; subst; try discriminate).
  - right. auto.
  - left. split; [reflexivity|]. split; [|reflexivity].
    apply Z.eqb_neq. assumption.
Qed.

Lemma X12_open_device_result_witness :
  match open_device scripted playing quiet with
  | Ret (rc, a') _ tr => rc = 0 /\ device_id a' <> 0
  | _ => False
  end.
Proof.
  destruct (open_device scripted playing quiet) as [[rc a'] s' tr| |] eqn:E;
    [|vm_compute in E; discriminate E|vm_compute in E; discriminate E].
  destruct (X12_open_device_result _ _ _ _ _ _ _ E)
    as (d & id & spec & _ & Hs & -> & _ & _ & _ & _ & _ & [(-> & Hn & _)|(_ & Hz & _)]).
  - split; [reflexivity|exact Hn].
  - exfalso. subst id. vm_compute in E. discriminate E.
Defined.

Section GraphFacts.
Context (L : libav).

Lemma create_graph_full (a : oshu_audio) (s : lib_state L) rc a' s' tr :
  create_graph L a s = Ret (rc, a') s' tr ->
  exists p',
    a' = set_pipeline a p' /\
    held Graph tr = 1 /\
    (forall r, r <> Graph -> r <> Params -> r <> OutputFrame -> held r tr = 0) /\
    ((rc = 0 /\
      graph p' = Some {| links := pipeline_links |} /\
      filter_names p' =
        [Some ("abuffer", "music"); Some ("abuffer", "effect"); Some ("amix", "mixer");
         Some ("aformat", "converter"); Some ("abuffersink", "sink")] /\
      is_some (output p') = true /\
      held OutputFrame tr = 1 /\ held Params tr = 0) \/
     (rc = -1 /\
      output p' = output (pipeline a) /\
      is_some (graph p') = true /\
      held OutputFrame tr = 0 /\
      exists code tr0,
        tr = tr0 ++ [AvError code] /\ code <> 0 /\
        (held Params tr = 0 \/
         (held Params tr = 1 /\ exists tr1, tr0 = tr1 ++ [Acquire Params])))).
Proof.
  unfold create_graph, create_graph_fail, alloc_filter, alloc, fcall. intros H.
  crunch_in H.
  all: inversion H; subst; clear H.
  all: eexists; split; [reflexivity|].
  all: repeat match goal with b : bool |- _ => destruct b end.
  all: repeat match goal with
              | H : is_some _ = true |- _ => cbn in H; first [discriminate H | clear H]
              end.
  all: split; [reflexivity|].
  all: split; [intros r; destruct r; intros; try reflexivity; congruence|].
  all: first
    [ left; split; [reflexivity|]; repeat split; reflexivity
    | right; split; [reflexivity|]; split; [reflexivity|]; split; [reflexivity|];
      split; [reflexivity|];
      match goal with
      | |- exists code tr0, ?l = _ /\ _ =>
          eexists; exists (removelast l); split; [reflexivity|]
      end;
      split;
      [ match goal with
        | E : negb (?z =? 0) = true |- ?z <> 0 =>
            apply Bool.negb_true_iff, Z.eqb_neq in E; exact E
        | E : (?z <? 0) = true |- ?z <> 0 => apply Z.ltb_lt in E; lia
        end
      | first
          [ left; reflexivity
          | right; split; [reflexivity|];
            match goal with
            | |- exists tr1, ?l = _ => exists (removelast l); reflexivity
            end ] ] ].
Qed.

End GraphFacts.



Section AudioOwnership.
Context (L : libav).

Lemma open_device_held (a : oshu_audio) (s : lib_state L) rc a' s' tr :
  device_id a = 0 ->
  open_device L a s = Ret (rc, a') s' tr ->
  (rc = 0 \/ rc = -1) /\
  source a' = source a /\ pipeline a' = pipeline a /\
  (rc = 0 -> audio_owns a' Device = 1) /\
  forall r, held r tr = audio_owns a' r - audio_owns a r.
Proof.
  unfold open_device. intros Hd H. crunch_in H; inversion H; subst; clear H.
  all: split; [auto|]; split; [reflexivity|]; split; [reflexivity|].
  all: cbn [device_id set_device] in *.
  all: split;
       [intros E; try discriminate E; cbn;
        repeat match goal with E : (_ =? 0) = _ |- _ => rewrite E end; reflexivity|].
  all: intros r; destruct r; cbn; rewrite ?Hd; cbn;
       repeat match goal with E : (_ =? 0) = _ |- _ => rewrite E end;
       try lia; try discriminate.
Qed.

Lemma dump_stream_info_logs (a : oshu_audio) (s : lib_state L) u s' tr :
  dump_stream_info L a s = Ret u s' tr -> logs_only tr.
Proof.
  unfold dump_stream_info. intros H. crunch_in H; inversion H; subst; logs_only_tac.
Qed.

Lemma oshu_audio_close_held (a : oshu_audio) (s : lib_state L) h s' tr :
  oshu_audio_close L (Some a) s = Ret h s' tr ->
  h = None /\
  forall r, held r tr =
            match r with
            | Graph | OutputFrame | Params => 0
            | _ => - audio_owns a r
            end.
Proof.
  unfold oshu_audio_close. intros H. crunch_in H; inversion H; subst; clear H.
  all: split; [reflexivity|].
  all: match goal with
       | E : oshu_close_stream _ _ _ = _ |- _ =>
           pose proof (oshu_close_stream_held _ _ _ _ _ _ E) as Hc
       end.
  all: intros r; cbn [app held]; rewrite held_app; destruct (Hc r) as [-> _].
  all: unfold audio_owns; destruct (device_id a =? 0); try discriminate.
  all: destruct r; cbn; lia.
Qed.

Lemma open_demuxer_ok url st (s : lib_state L) rc st' s' tr :
  open_demuxer L url st s = Ret (rc, st') s' tr ->
  (rc <? 0) = false ->
  is_some (demuxer st') = true.
Proof.
  unfold open_demuxer, open_demuxer_fail. intros H Hrc.
  crunch_in H; inversion H; subst; clear H; try discriminate Hrc.
  reflexivity.
Qed.


Lemma oshu_open_stream_demuxer fuel url st (s : lib_state L) st' s' tr :
  demuxer st = None -> decoder st = None -> frame st = None ->
  oshu_open_stream L fuel url st s = Ret (0, st') s' tr ->
  is_some (demuxer st') = true.
Proof.
  intros Hdm Hdc Hfr H.
  unfold oshu_open_stream, oshu_open_stream_fail in H. crunch_in H.
  all: inversion H; subst; clear H.
  match goal with
  | E : open_demuxer _ _ _ _ = _ |- _ =>
      pose proof E as Hok; apply open_demuxer_ok in Hok; [|assumption];
      apply (open_demuxer_held _ _ _ _ _ _ _ _ Hdm) in E as (Edc & Efr & _)
  end.
  rewrite Hdc in Edc. rewrite Hfr in Efr.
  match goal with
  | E : open_decoder _ _ _ = _ |- _ =>
      apply (open_decoder_held _ _ _ _ _ _ _ Edc Efr) in E as (Edm & _)
  end.
  match goal with
  | E : oshu_next_frame _ _ _ _ = _ |- _ =>
      apply oshu_next_frame_inv in E as [(Edm' & _) _]
  end.
  rewrite Edm', Edm. exact Hok.
Qed.

End AudioOwnership.

Lemma oshu_audio_open_held
    (L : libav) (fuel : nat) (url : string) (s : lib_state L)
    (rc : Z) (h : option oshu_audio) (s' : lib_state L) (tr : list event) :
  oshu_audio_open L fuel url s = Ret (rc, h) s' tr ->
  (rc = 0 /\
   exists a, h = Some a /\
     (forall r, held r tr = audio_owns a r) /\
     (forall r, r <> Params -> audio_owns a r = 1)) \/
  (rc = -1 /\ h = None /\
   forall r, r <> Graph -> r <> Params -> held r tr = 0).
Proof.
  unfold oshu_audio_open, oshu_audio_open_fail. intros H. crunch_in H.
  all: inversion H; subst; clear H.
  all: repeat match goal with
              | E : oshu_audio_close _ _ _ = _ |- _ =>
                  apply oshu_audio_close_held in E as [-> Hcl]
              end.
  all: repeat match goal with
              | E : oshu_open_stream _ _ _ _ _ = _ |- _ =>
                  pose proof (oshu_open_stream_inv _ _ _ _ _ _ _ _ _ E) as Hfr;
                  pose proof E as Hdm;
                  apply oshu_open_stream_held in E as (Hz & Hst & _);
                  [|reflexivity..]
              | E : open_device _ _ _ = _ |- _ =>
                  pose proof (open_device_inv _ _ _ _ _ _ _ E)
                    as (d & _ & _ & _ & Hdec & _);
                  apply open_device_held in E as (Hz0 & Hsrc & Hpip & Hdev & Hod);
                  [|reflexivity]
              | E : create_graph _ _ _ = _ |- _ =>
                  apply create_graph_full in E
                    as (p' & -> & HG & Hcg & Hres)
              | E : dump_stream_info _ _ _ = _ |- _ =>
                  apply dump_stream_info_logs in E
              end.
  all: intros.
  - right. split; [reflexivity|]. split; [reflexivity|].
    intros r _ _. destruct r; reflexivity.
  - right. split; [reflexivity|]. split; [reflexivity|]. intros r Hg Hp.
    cbn [held]. rewrite !held_app, Hst, Hcl.
    destruct r; cbn; first [lia | congruence].
  - right. split; [reflexivity|]. split; [reflexivity|]. intros r Hg Hp.
    cbn [held]. rewrite !held_app, Hst, Hod, Hcl.
    destruct r; cbn; rewrite ?Hsrc, ?Hpip; cbn; first [lia | congruence].
  - right. split; [reflexivity|]. split; [reflexivity|]. intros r Hg Hp.
    destruct Hres as [(-> & _)|(_ & _ & _ & HO & _)]; [discriminate Heqb3|].
    cbn [held]. rewrite !held_app, Hst, Hod, Hcl.
    destruct r; try congruence.
    all: try (rewrite Hcg by discriminate).
    all: rewrite ?HO.
    all: cbn; rewrite ?Hsrc, ?Hpip; cbn; lia.
  - left. split; [reflexivity|].
    destruct Hres as [(_ & Hgr & _ & Hout & HO & HP)|(-> & _)]; [|discriminate Heqb3].
    assert (Ez : z = 0) by (destruct Hz; [assumption|subst; discriminate]).
    assert (Ez0 : z0 = 0) by (destruct Hz0; [assumption|subst; discriminate]).
    subst z z0.
    apply oshu_open_stream_demuxer in Hdm; [|reflexivity..].
    destruct Hfr as [(_ & _ & f & _ & Hf)|(E & _)]; [|discriminate E].
    eexists. split; [reflexivity|]. split.
    + intros r. cbn [held]. rewrite !held_app, Hst, Hod, (logs_only_held r tr3) by assumption.
      destruct r.
      all: try (rewrite Hcg by discriminate).
      all: rewrite ?HG, ?HO, ?HP.
      all: cbn; rewrite ?Hsrc, ?Hpip, ?Hgr; cbn; try lia.
      destruct (output p'); [cbn; lia|discriminate Hout].
    + intros r Hr. destruct r; cbn; rewrite ?Hsrc; cbn.
      * reflexivity.
      * unfold own. rewrite Hdm. reflexivity.
      * cbn in Hdec. unfold own. rewrite Hdec. reflexivity.
      * unfold own. rewrite Hf. reflexivity.
      * apply Hdev. reflexivity.
      * rewrite Hgr. reflexivity.
      * congruence.
      * unfold own. rewrite Hout. reflexivity.
Qed.

Lemma oshu_audio_close_returns (L : libav) (a : oshu_audio) (s : lib_state L) :
  exists s' tr, oshu_audio_close L (Some a) s = Ret None s' tr.
Proof.
  unfold oshu_audio_close.
  destruct (negb (device_id a =? 0)).
  - cbv beta iota zeta delta [bind ret emit exec prepend free_and_null].
    destruct (oshu_close_stream_spec L (source a) (release L Device s))
      as (st' & s1 & -> & _).
    eexists _, _. reflexivity.
  - cbv beta iota zeta delta [bind ret emit exec prepend free_and_null].
    destruct (oshu_close_stream_spec L (source a) s) as (st' & s1 & -> & _).
    eexists _, _. reflexivity.
Qed.

(** X14. What [oshu_audio_open] holds when it returns is what the context it
    returns points to.  On 0 it returns a context and has acquired, and not
    released, exactly one of each: the context, the demuxer, the decoder,
    the frame of the stream, the device, the graph and the output frame; no
    parameter block is left.  On -1 it returns no context and has released
    the context, the device and everything of the stream it had acquired;
    the graph, which [oshu_audio_close] does not free, and a parameter block
    that was rejected are the two things it can still hold. *)
Theorem X14_audio_open_holds_what_it_returns
    (L : libav) (fuel : nat) (url : string) (s : lib_state L)
    (rc : Z) (h : option oshu_audio) (s' : lib_state L) (tr : list event) :
  oshu_audio_open L fuel url s = Ret (rc, h) s' tr ->
  (rc = 0 /\
   exists a, h = Some a /\
     (forall r, held r tr = audio_owns a r) /\
     (forall r, r <> Params -> audio_owns a r = 1)) \/
  (rc = -1 /\ h = None /\
   forall r, r <> Graph -> r <> Params -> held r tr = 0).
Proof. apply oshu_audio_open_held. Qed.

Lemma X14_audio_open_holds_what_it_returns_witness :
  match oshu_audio_open scripted 5 "song.mp3" (with_recvs quiet [(0, frame_at 0)]) with
  | Ret (rc, Some a) _ tr => rc = 0 /\ forall r, held r tr = audio_owns a r
  | _ => False
  end.
Proof.
  destruct (oshu_audio_open scripted 5 "song.mp3" (with_recvs quiet [(0, frame_at 0)]))
    as [[rc h] s' tr| |] eqn:E;
    [|vm_compute in E; discriminate E|vm_compute in E; discriminate E].
  destruct (X14_audio_open_holds_what_it_returns _ _ _ _ _ _ _ _ E)
    as [(-> & a & -> & Hh & _)|(-> & _)].
  - split; [reflexivity|exact Hh].
  - exfalso. vm_compute in E. discriminate E.
Defined.

(** X15. A context that was opened and is then closed: the close returns
    with the handle null, and of all that the two calls acquired the graph
    and the output frame are still held, one each; everything else has been
    released.  [oshu_audio_close] frees neither of the two. *)
Theorem X15_close_after_open_keeps_graph_and_output
    (L : libav) (fuel : nat) (url : string) (s : lib_state L)
    (a : oshu_audio) (s1 : lib_state L) (tr1 : list event) :
  oshu_audio_open L fuel url s = Ret (0, Some a) s1 tr1 ->
  exists s2 tr2,
    oshu_audio_close L (Some a) s1 = Ret None s2 tr2 /\
    forall r, held r (tr1 ++ tr2) =
              match r with Graph | OutputFrame => 1 | _ => 0 end.
Proof.
  intros H.
  destruct (oshu_audio_close_returns L a s1) as (s2 & tr2 & Hc).
  exists s2, tr2. split; [exact Hc|].
  apply oshu_audio_close_held in Hc as [_ Hcl].
  apply oshu_audio_open_held in H as [(_ & a0 & Ea & Hh & H1)|(E & _)];
    [|discriminate E].
  injection Ea as <-.
  intros r. rewrite held_app, Hh, Hcl.
  destruct r; try lia.
  - rewrite (H1 Graph) by discriminate. reflexivity.
  - reflexivity.
  - rewrite (H1 OutputFrame) by discriminate. reflexivity.
Qed.

Lemma X15_close_after_open_keeps_graph_and_output_witness :
  match oshu_audio_open scripted 5 "song.mp3" (with_recvs quiet [(0, frame_at 0)]) with
  | Ret (0, Some a) s1 tr1 =>
      exists s2 tr2,
        oshu_audio_close scripted (Some a) s1 = Ret None s2 tr2 /\
        held Graph (tr1 ++ tr2) = 1
  | _ => False
  end.
Proof.
  destruct (oshu_audio_open scripted 5 "song.mp3" (with_recvs quiet [(0, frame_at 0)]))
    as [[rc h] s1 tr1| |] eqn:E;
    [|vm_compute in E; discriminate E|vm_compute in E; discriminate E].
  destruct rc as [|p|p]; [|vm_compute in E; discriminate E|vm_compute in E; discriminate E].
  destruct h as [a|]; [|vm_compute in E; discriminate E].
  destruct (X15_close_after_open_keeps_graph_and_output _ _ _ _ _ _ _ E)
    as (s2 & tr2 & Hc & Hh).
  exists s2, tr2. split; [exact Hc|exact (Hh Graph)].
Defined.

Section CallbackExits.
Context (L : libav).

Lemma feed_flag fuel a (s : lib_state L) a' s' tr :
  feed L fuel a s = Ret a' s' tr ->
  pipeline a' = pipeline a /\ finished a' = finished a /\
  device_spec a' = device_spec a.
Proof.
  unfold feed, buffersrc_write_frame. intros H. crunch_in H.
  all: inversion H; subst; clear H.
  all: repeat match goal with
              | E : next_frame _ _ _ _ = _ |- _ =>
                  apply next_frame_inv in E as (_ & Hp & _ & Hs & _ & Hf & _)
              end.
  all: cbn; auto.
Qed.

Lemma audio_callback_exit fuel : forall a buffer len (s : lib_state L) a' buffer' s' tr,
  audio_callback L fuel a buffer len s = Ret (a', buffer') s' tr ->
  finished a = 0 ->
  exists s0 rc f,
    av_buffersink_get_frame L s0 = ((rc, f), s') /\
    rc <> AVERROR_EAGAIN /\
    output (pipeline a') = store (output (pipeline a)) f /\
    ((rc = 0 /\ finished a' = 0 /\ output (pipeline a') = Some f /\
      buffer' = memcpy buffer (data0 f) (memory_past L f s') len) \/
     (rc = AVERROR_EOF /\ finished a' = 1 /\
      buffer' = audio_callback_end a' buffer len) \/
     (rc <> 0 /\ rc <> AVERROR_EOF /\ finished a' = 0 /\
      buffer' = audio_callback_end a' buffer len /\
      exists tr0, tr = tr0 ++ [AvError rc])).
Proof.
  induction fuel as [|fuel IH]; intros a buffer len s a' buffer' s' tr H Hf;
    simpl in H; rewrite Hf in H; cbn [Z.eqb negb] in H.
  - discriminate H.
  - crunch_in H.
    all: inversion H; subst; clear H.
    + match goal with
      | E : feed _ _ _ _ = _ |- _ => apply feed_flag in E as (Hp & Hfl & _)
      end.
      match goal with
      | E : audio_callback _ _ _ _ _ _ = _ |- _ =>
          apply IH in E as (sx & rcx & fx & Hs & Hn & Ho & Hres);
          [|rewrite Hfl; exact Hf]
      end.
      exists sx, rcx, fx. split; [exact Hs|]. split; [exact Hn|].
      rewrite Hp in Ho. cbn [pipeline set_pipeline output set_output] in Ho.
      rewrite store_store in Ho. split; [exact Ho|].
      destruct Hres as [H0|[H1|(Ha & Hb & Hc & Hd & trx & ->)]]; auto.
      right. right. repeat (split; [assumption|]).
      exists (tr0 ++ trx). rewrite app_assoc. reflexivity.
    + exists s, z, a0.
      repeat match goal with
             | E : (_ =? _) = true |- _ => apply Z.eqb_eq in E
             | E : (_ =? _) = false |- _ => apply Z.eqb_neq in E
             end.
      split; [assumption|]. split; [assumption|]. split; [reflexivity|].
      right. left. auto.
    + exists s, z, a0.
      repeat match goal with
             | E : (_ =? _) = true |- _ => apply Z.eqb_eq in E
             | E : (_ =? _) = false |- _ => apply Z.eqb_neq in E
             end.
      split; [assumption|]. split; [assumption|].
      cbn [pipeline set_pipeline output set_output finished] in *.
      match goal with
      | E : store _ _ = Some _ |- _ =>
          split; [symmetry; exact E|];
          destruct (output (pipeline a)); [|discriminate E];
          cbn [store] in E; injection E as <-
      end.
      left. auto.
    + exists s, z, a0.
      repeat match goal with
             | E : (_ =? _) = true |- _ => apply Z.eqb_eq in E
             | E : (_ =? _) = false |- _ => apply Z.eqb_neq in E
             end.
      split; [assumption|]. split; [assumption|]. split; [reflexivity|].
      right. right. repeat (split; [assumption|]).
      split; [reflexivity|]. exists []. reflexivity.
Qed.

End CallbackExits.

(** X16. The callback leaves its loop only on an answer of the sink that is
    not [EAGAIN]; the decoder running dry or failing never ends it.  On an
    unfinished context a callback that returns has just got such an answer:
    a frame (code 0), and then [len] bytes have been copied from the data of
    that frame to the buffer, whatever the frame holds, those past the end
    of its data included, and the flag stays 0; or the end of the stream,
    the only case in which the flag is set; or another code, which is logged
    last and leaves the flag at 0, so that the next callback asks the sink
    again.  In the last two cases the buffer goes through the last statement
    of the callback.  The output frame, when there is one, ends as the frame
    of that answer. *)
Theorem X16_callback_returns_on_a_sink_answer
    (L : libav) (fuel : nat) (a : oshu_audio) (buffer : list Z) (len : Z)
    (s : lib_state L) (a' : oshu_audio) (buffer' : list Z)
    (s' : lib_state L) (tr : list event) :
  audio_callback L fuel a buffer len s = Ret (a', buffer') s' tr ->
  finished a = 0 ->
  exists s0 rc f,
    av_buffersink_get_frame L s0 = ((rc, f), s') /\
    rc <> AVERROR_EAGAIN /\
    output (pipeline a') = store (output (pipeline a)) f /\
    ((rc = 0 /\ finished a' = 0 /\ output (pipeline a') = Some f /\
      buffer' = memcpy buffer (data0 f) (memory_past L f s') len) \/
     (rc = AVERROR_EOF /\ finished a' = 1 /\
      buffer' = audio_callback_end a' buffer len) \/
     (rc <> 0 /\ rc <> AVERROR_EOF /\ finished a' = 0 /\
      buffer' = audio_callback_end a' buffer len /\
      exists tr0, tr = tr0 ++ [AvError rc])).
Proof. apply audio_callback_exit. Qed.

Lemma X16_callback_returns_on_a_sink_answer_witness :
  match audio_callback scripted 5 playing [9; 9; 9; 9] 4 (two_buffers [50; 100]) with
  | Ret (a', buffer') s' _ => finished a' = 0 /\ buffer' = [7; 7; 0; 0]
  | _ => False
  end.
Proof.
  destruct (audio_callback scripted 5 playing [9; 9; 9; 9] 4 (two_buffers [50; 100]))
    as [[a' buffer'] s' tr| |] eqn:E;
    [|vm_compute in E; discriminate E|vm_compute in E; discriminate E].
  destruct (X16_callback_returns_on_a_sink_answer _ _ _ _ _ _ _ _ _ _ E eq_refl)
    as (s0 & rc & f & _ & _ & _ &
        [(_ & Hf & Ho & Hb)|[(_ & Hf & _)|(_ & _ & _ & _ & tr0 & Ht)]]).
  - split; [exact Hf|]. rewrite Hb. clear Hb.
    vm_compute in E. injection E as <- _ _ _.
    injection Ho as <-. reflexivity.
  - exfalso. vm_compute in E. injection E as <- _ _ _. discriminate Hf.
  - exfalso. vm_compute in E. injection E as _ _ _ <-.
    apply (f_equal (@rev event)) in Ht. rewrite rev_app_distr in Ht.
    discriminate Ht.
Defined.

(** X17. What a failed [open_decoder] logs as the ffmpeg error is the code
    of the last library call that returned one.  When the parameters cannot
    be copied or the codec cannot be opened that code is negative.  When the
    frame cannot be allocated it is the code of [avcodec_open2], which had
    succeeded: a code that is not negative is logged as an error, and the
    decoder is left open in the stream. *)
Theorem X17_open_decoder_logs_the_last_code
    (L : libav) (st : oshu_stream) (s : lib_state L)
    (st' : oshu_stream) (s' : lib_state L) (tr : list event) :
  open_decoder L st s = Ret (-1, st') s' tr ->
  exists acquisitions msg code,
    tr = acquisitions ++ [Log Error msg; AvError code] /\
    (forall e, In e acquisitions -> e = Acquire Decoder) /\
    ((msg = "error copying the codec context" /\ code < 0) \/
     (msg = "error opening the codec" /\ code < 0) \/
     (msg = "could not allocate the codec frame" /\ 0 <= code /\
      frame st' = None /\
      exists s0 s1 s2 d c,
        avcodec_open2 L d s0 = ((code, c), s1) /\
        av_frame_alloc L s2 = (None, s'))).
Proof.
  unfold open_decoder, open_decoder_fail. intros H.
  crunch_in H; inversion H; subst; clear H.
  all: repeat match goal with
              | E : (_ <? 0) = true |- _ => apply Z.ltb_lt in E
              | E : (_ <? 0) = false |- _ => apply Z.ltb_ge in E
              end.
  all: first [ exists [Acquire Decoder]; eexists _, _; split; [reflexivity|]
             | exists []; eexists _, _; split; [reflexivity|] ].
  all: split; [cbn; intuition congruence|].
  all: first
    [ left; split; [reflexivity|assumption]
    | right; left; split; [reflexivity|assumption]
    | right; right; split; [reflexivity|]; split; [assumption|];
      split; [reflexivity|]; eexists _, _, _, _, _; split; eassumption ].
Qed.

Lemma X17_open_decoder_logs_the_last_code_witness :
  match open_decoder out_of_frames demuxed quiet with
  | Ret (-1, _) _ tr =>
      exists acquisitions msg code, tr = acquisitions ++ [Log Error msg; AvError code]
  | _ => False
  end.
Proof.
  destruct (open_decoder out_of_frames demuxed quiet) as [[rc st'] s' tr| |] eqn:E;
    [|vm_compute in E; discriminate E|vm_compute in E; discriminate E].
  destruct rc as [|p|p]; [vm_compute in E; discriminate E|vm_compute in E; discriminate E|].
  destruct p as [p|p|]; [vm_compute in E; discriminate E|vm_compute in E; discriminate E|].
  destruct (X17_open_decoder_logs_the_last_code _ _ _ _ _ _ E)
    as (acq & msg & code & Ht & _ & _).
  exists acq, msg, code. exact Ht.
Defined.


